(** * COS catalogue scraper: normalisation, limit and upsert sink

    A shallow embedding of [cos_scraper.py]: [COSDataProcessor.process_product],
    [COSDataProcessor.process_json_response], [SupabaseImporter.import_products]
    and the two [COSScraper.scrape_from_json_*] methods, with the properties
    the specification states about them.

    Modelling conventions.
    - A Python [str] is a [string] holding its UTF-8 bytes.  Substring tests,
      [replace] and ASCII lower-casing commute with that encoding; of the
      non-ASCII code points none lower-cases to a letter of the keywords the
      code looks for ("men", "cashmere", "wool", "cotton").  White space is
      the ASCII white space of [str.isspace].
    - A value read from the catalogue document is a [json] value (Python's
      [Any] after [json.load]); a method called on a value of the wrong type
      raises, which is the [Raise] outcome of [exc].
    - A Python [float] is the exact decimal it was read from ([PyFloat]);
      rounding to a double is not modelled. *)

From Stdlib Require Import ZArith QArith Ascii String List Bool Lia.
From stdpp Require Import base option list strings pretty gmap.

Local Open Scope string_scope.
Local Open Scope Z_scope.

(** ** Python values *)

#[warnings="-register-all"]
Inductive json : Type :=
| JNull
| JBool (b : bool)
| JInt (n : Z)
| JFloat (q : Q)
| JStr (s : string)
| JArr (items : list json)
| JObj (fields : list (string * json)).

(** A [dict] with text keys, as [json.load] builds one. *)
Abbreviation dict := (list (string * json)).

(** Outcome of an expression that may raise. *)
Inductive exc (A : Type) : Type :=
| Ret (a : A)
| Raise.
Arguments Ret {A} a.
Arguments Raise {A}.

#[global] Instance exc_ret : MRet exc := fun A a => Ret a.

#[global] Instance exc_bind : MBind exc := fun A B k m =>
  match m with
  | Ret a => k a
  | Raise => Raise
  end.

#[global] Instance exc_fmap : FMap exc := fun A B f m =>
  match m with
  | Ret a => Ret (f a)
  | Raise => Raise
  end.

(** [bool(v)]: Python truthiness. *)
Definition truthy (v : json) : bool :=
  match v with
  | JNull => false
  | JBool b => b
  | JInt n => negb (n =? 0)
  | JFloat q => negb (Qeq_bool q 0)
  | JStr s => negb (String.eqb s "")
  | JArr items => match items with [] => false | _ => true end
  | JObj fields => match fields with [] => false | _ => true end
  end.

(** [d.get(key, default)] on a dict. *)
Fixpoint dict_get (d : dict) (key : string) (default : json) : json :=
  match d with
  | [] => default
  | (k, v) :: rest => if String.eqb k key then v else dict_get rest key default
  end.

(** [v.get(key, default)] on any value: only a dict has the method. *)
Definition py_get (v : json) (key : string) (default : json) : exc json :=
  match v with
  | JObj fields => Ret (dict_get fields key default)
  | _ => Raise
  end.

(** [v[0]]. A dict from JSON has text keys only, so [0] is a [KeyError];
    the first character of a text is a text again. *)
Definition py_index0 (v : json) : exc json :=
  match v with
  | JArr (x :: _) => Ret x
  | JStr (String c _) => Ret (JStr (String c ""))
  | _ => Raise
  end.

Fixpoint chars (s : string) : list json :=
  match s with
  | "" => []
  | String c rest => JStr (String c "") :: chars rest
  end%string.

(** [for x in v]: the elements a loop over [v] visits. *)
Definition py_iter (v : json) : exc (list json) :=
  match v with
  | JArr items => Ret items
  | JObj fields => Ret (map (fun kv => JStr (fst kv)) fields)
  | JStr s => Ret (chars s)
  | _ => Raise
  end.

(** ** Text operations *)

Definition lower_ascii (c : ascii) : ascii :=
  let n := nat_of_ascii c in
  if ((65 <=? n) && (n <=? 90))%nat then ascii_of_nat (n + 32) else c.

Definition upper_ascii (c : ascii) : ascii :=
  let n := nat_of_ascii c in
  if ((97 <=? n) && (n <=? 122))%nat then ascii_of_nat (n - 32) else c.

Definition is_alpha (c : ascii) : bool :=
  let n := nat_of_ascii c in
  (((65 <=? n) && (n <=? 90)) || ((97 <=? n) && (n <=? 122)))%nat.

(** [s.lower()] *)
Fixpoint lower (s : string) : string :=
  match s with
  | "" => ""
  | String c rest => String (lower_ascii c) (lower rest)
  end%string.

(** [needle in hay] for two texts. *)
Fixpoint contains (needle hay : string) : bool :=
  String.prefix needle hay ||
  match hay with
  | "" => false
  | String _ rest => contains needle rest
  end%string.

Fixpoint replace_from (old new : string) (skip : nat) (s : string) : string :=
  match s with
  | "" => ""
  | String c rest =>
      match skip with
      | S k => replace_from old new k rest
      | O =>
          if String.prefix old s
          then new +:+ replace_from old new (String.length old - 1) rest
          else String c (replace_from old new 0 rest)
      end
  end%string.

(** [s.replace(old, new)] for a non-empty [old]. *)
Definition replace (old new s : string) : string := replace_from old new 0 s.

Definition is_space (c : ascii) : bool :=
  let n := nat_of_ascii c in
  (((9 <=? n) && (n <=? 13)) || ((28 <=? n) && (n <=? 32)))%nat.

Fixpoint lstrip (s : string) : string :=
  match s with
  | "" => ""
  | String c rest => if is_space c then lstrip rest else s
  end%string.

Fixpoint rstrip (s : string) : string :=
  match s with
  | "" => ""
  | String c rest =>
      match rstrip rest with
      | "" => if is_space c then "" else String c ""
      | kept => String c kept
      end
  end%string.

(** [s.strip()] *)
Definition strip (s : string) : string := rstrip (lstrip s).

(** [s.split(sep)[-1]] for a one-character [sep]: what follows the last
    separator, the whole text when there is none. *)
Fixpoint last_segment (sep : ascii) (s : string) : string :=
  match s with
  | "" => ""
  | String c rest =>
      if Ascii.eqb c sep then last_segment sep rest
      else if contains (String sep "") rest then last_segment sep rest
      else s
  end%string.

Fixpoint title_from (prev_cased : bool) (s : string) : string :=
  match s with
  | "" => ""
  | String c rest =>
      String (if prev_cased then lower_ascii c else upper_ascii c)
             (title_from (is_alpha c) rest)
  end%string.

(** [s.title()] *)
Definition title_case (s : string) : string := title_from false s.

(** ** [float(text)] *)

Inductive PyFloat : Type :=
| Fin (q : Q)
| Inf (negative : bool)
| NaN.

Definition digit_of (c : ascii) : option Z :=
  let n := nat_of_ascii c in
  if ((48 <=? n) && (n <=? 57))%nat then Some (Z.of_nat n - 48) else None.

(** The rest of a [digitpart] after its first digit: digits, each
    optionally preceded by one underscore.  Returns the number read so
    far, how many digits it has, and the unread text. *)
Fixpoint digits_more (value : Z) (count : nat) (s : string)
  : Z * nat * string :=
  match s with
  | "" => (value, count, "")
  | String c rest =>
      match digit_of c with
      | Some d => digits_more (10 * value + d) (S count) rest
      | None =>
          if Ascii.eqb c "_" then
            match rest with
            | String c' rest' =>
                match digit_of c' with
                | Some d => digits_more (10 * value + d) (S count) rest'
                | None => (value, count, s)
                end
            | "" => (value, count, s)
            end
          else (value, count, s)
      end
  end%string.

Definition digitpart (s : string) : option (Z * nat * string) :=
  match s with
  | String c rest =>
      match digit_of c with
      | Some d => Some (digits_more d 1 rest)
      | None => None
      end
  | "" => None
  end%string.

Definition sign_of (s : string) : bool * string :=
  match s with
  | String "-" rest => (true, rest)
  | String "+" rest => (false, rest)
  | _ => (false, s)
  end%string.

(** [number ::= [digitpart] "." digitpart | digitpart ["."]]: the
    digits as one integer, the number of digits after the point, and the
    unread text. *)
Definition number (s : string) : option (Z * nat * string) :=
  match s with
  | String "." rest =>
      match digitpart rest with
      | Some (f, k, rest') => Some (f, k, rest')
      | None => None
      end
  | _ =>
      match digitpart s with
      | Some (i, _, String "." rest) =>
          match rest with
          | String c rest1 =>
              match digit_of c with
              | Some d =>
                  let '(v, k, rest') := digits_more (10 * i + d) 1 rest1 in
                  Some (v, k, rest')
              | None => Some (i, O, rest)
              end
          | "" => Some (i, O, "")
          end
      | Some (i, _, rest) => Some (i, O, rest)
      | None => None
      end
  end%string.

(** [exponent ::= ("e" | "E") [sign] digitpart], absent when the text has
    ended. *)
Definition exponent (s : string) : option Z :=
  match s with
  | "" => Some 0
  | String c rest =>
      if Ascii.eqb (lower_ascii c) "e" then
        let '(neg, rest1) := sign_of rest in
        match digitpart rest1 with
        | Some (e, _, "") => Some (if neg then - e else e)
        | _ => None
        end
      else None
  end%string.

Definition scale10 (mantissa e : Z) : Q :=
  if 0 <=? e then inject_Z (mantissa * 10 ^ e)
  else Qred (Qmake mantissa (Z.to_pos (10 ^ (- e)))).

(** [float(s)] on a text: [None] is [ValueError]. The grammar is the one
    of the language reference with ASCII digits; the value is exact, where
    Python rounds it to a double and turns an overflow into [inf]. *)
Definition py_float (s : string) : option PyFloat :=
  let '(neg, body) := sign_of (strip s) in
  let word := lower body in
  if String.eqb word "inf" || String.eqb word "infinity" then Some (Inf neg)
  else if String.eqb word "nan" then Some NaN
  else
    match number body with
    | Some (m, k, rest) =>
        match exponent rest with
        | Some e => Some (Fin (scale10 (if neg then - m else m) (e - Z.of_nat k)))
        | None => None
        end
    | None => None
    end.

(** ** The Python run time and the collaborators left abstract *)

(** What the code takes from the run time without the properties below depending on
    it: [py_repr v] is the text [str(v)] gives for a float, a list or a
    dict; [json_dumps v] is [json.dumps(v)]. *)
Class PyRuntime := {
  py_repr : json -> string;
  json_dumps : json -> string
}.

(** [str(v)], as an f-string formats [v]. *)
Definition py_str `{PyRuntime} (v : json) : string :=
  match v with
  | JStr s => s
  | JInt n => pretty n
  | JBool true => "True"
  | JBool false => "False"
  | JNull => "None"
  | _ => py_repr v
  end.

(** A text method ([strip], [replace], [lower], [split]) exists on a
    [str] only. *)
Definition as_str (v : json) : exc string :=
  match v with
  | JStr s => Ret s
  | _ => Raise
  end.

Definition is_text (t : string) (v : json) : bool :=
  match v with
  | JStr s => String.eqb s t
  | _ => false
  end.

(** [t in v] for a text [t]: substring of a text, element of a list, key
    of a dict. *)
Definition py_in (t : string) (v : json) : exc bool :=
  match v with
  | JStr s => Ret (contains t s)
  | JArr items => Ret (existsb (is_text t) items)
  | JObj fields => Ret (existsb (fun kv => String.eqb (fst kv) t) fields)
  | _ => Raise
  end.

Definition Embedding := list Q.

(** [COSEmbeddingGenerator]: downloads the image and runs the model;
    every failure inside is caught and gives [None]. *)
Record COSEmbeddingGenerator := {
  generate_embedding : json -> option Embedding
}.

Record COSDataProcessor := {
  embedding_generator : COSEmbeddingGenerator
}.

(** ** [ProductData] *)

(** The dataclass. Its annotations are not enforced: [image_url] holds
    whatever true value the listing has under [src], a text in every
    catalogue document seen, so it is a [json] value here; the other
    fields hold values of their annotated types on every path of
    [process_product]. *)
Module ProductData.
Record t := mk {
  id : string;
  product_url : string;
  image_url : json;
  title : string;
  gender : string;
  price : PyFloat;
  currency : string;
  source : string;
  affiliate_url : option string;
  brand : string;
  description : option string;
  category : option string;
  metadata : option string;
  size : option string;
  second_hand : bool;
  embedding : option Embedding;
  country : string;
  compressed_image_url : option string;
  tags : option (list string)
}.

(** The constructor call of [process_product]: the fields it passes,
    the dataclass defaults for the others. *)
Definition make (id product_url : string) (image_url : json)
    (title gender : string) (price : PyFloat) (currency : string)
    (category metadata : option string) (embedding : option Embedding)
    (tags : option (list string)) : t :=
  {| id := id; product_url := product_url; image_url := image_url;
     title := title; gender := gender; price := price;
     currency := currency; source := "scraper"; affiliate_url := None;
     brand := "COS"; description := None; category := category;
     metadata := metadata; size := None; second_hand := false;
     embedding := embedding; country := "EU";
     compressed_image_url := None; tags := tags |}.

Definition with_embedding (e : option Embedding) (p : t) : t :=
  {| id := id p; product_url := product_url p; image_url := image_url p;
     title := title p; gender := gender p; price := price p;
     currency := currency p; source := source p;
     affiliate_url := affiliate_url p; brand := brand p;
     description := description p; category := category p;
     metadata := metadata p; size := size p;
     second_hand := second_hand p; embedding := e;
     country := country p;
     compressed_image_url := compressed_image_url p; tags := tags p |}.
End ProductData.

(** ** [COSDataProcessor.process_product] *)

(** [any("men" in cat.lower() for cat in categories)]: stops at the first
    match. *)
Fixpoint any_men (cats : list json) : exc bool :=
  match cats with
  | [] => Ret false
  | cat :: rest =>
      s ← as_str cat;
      if contains "men" (lower s) then Ret true else any_men rest
  end.

(** The loop that builds [tags]: one keyword at most per category label,
    the first of cashmere, wool, cotton that the label contains. *)
Fixpoint fabric_tags (cats : list json) : exc (list string) :=
  match cats with
  | [] => Ret []
  | cat :: rest =>
      s ← as_str cat;
      more ← fabric_tags rest;
      Ret (if contains "cashmere" (lower s) then "cashmere" :: more
           else if contains "wool" (lower s) then "wool" :: more
           else if contains "cotton" (lower s) then "cotton" :: more
           else more)
  end.

(** [[img.get("src") for img in images if img.get("src")]] *)
Fixpoint all_images (images : list json) : exc (list json) :=
  match images with
  | [] => Ret []
  | img :: rest =>
      src ← py_get img "src" JNull;
      more ← all_images rest;
      Ret (if truthy src then src :: more else more)
  end.

(** The price statement: the text of the [price] field without the euro
    sign, commas turned into points, stripped; [float] of it, [0.0] on
    [ValueError]. *)
Definition price_text (v : json) : exc string :=
  s ← as_str v;
  Ret (strip (replace "," "." (replace "€" "" s))).

Definition parse_price (text : string) : PyFloat :=
  match py_float text with
  | Some f => f
  | None => Fin 0
  end.

(** The body of the [try] block: [Ret None] is [return None], [Raise] an
    exception that reaches the handler. *)
Definition process_product_try `{PyRuntime} (self : COSDataProcessor)
    (product_json : dict) : exc (option ProductData.t) :=
  let product_id := dict_get product_json "id" (JStr "") in
  if negb (truthy product_id) then Ret None else
  let uri := dict_get product_json "uri" (JStr "") in
  let product_url :=
    if truthy uri then "https://www.cos.com/en-eu/" +:+ py_str uri else "" in
  let primary_image := dict_get product_json "primaryImage" (JObj []) in
  image_url ← py_get primary_image "src" (JStr "");
  image_url ←
    (if negb (truthy image_url) then
       let images := dict_get product_json "images" (JArr []) in
       if truthy images then
         first ← py_index0 images;
         py_get first "src" (JStr "")
       else Ret image_url
     else Ret image_url);
  if negb (truthy image_url) then Ret None else
  name ← as_str (dict_get product_json "name" (JStr ""));
  let title := strip name in
  if String.eqb title "" then Ret None else
  let categories := dict_get product_json "categories" (JArr []) in
  cats ← py_iter categories;
  is_men ← any_men cats;
  let gender := if (is_men : bool) then "MAN" else "WOMAN" in
  price_str ← price_text (dict_get product_json "price" (JStr ""));
  let price := parse_price price_str in
  let category_uri := dict_get product_json "categoryUri" (JStr "") in
  has_slash ← py_in "/" category_uri;
  category ←
    (if (has_slash : bool) then
       path ← as_str category_uri;
       Ret (Some (title_case (replace "-" " " (last_segment "/" path))))
     else Ret None);
  images ← py_iter (dict_get product_json "images" (JArr []));
  srcs ← all_images images;
  let metadata := JObj
    [ ("centra_product_id", dict_get product_json "centraProductId" JNull);
      ("sku", dict_get product_json "sku" JNull);
      ("product_sku", dict_get product_json "product_sku" JNull);
      ("variants_count", dict_get product_json "variantsCount" JNull);
      ("is_new", dict_get product_json "isNew" (JBool false));
      ("is_on_sale", dict_get product_json "isOnSale" (JBool false));
      ("categories", categories);
      ("sustainability_composition",
         dict_get product_json "sustainabilityComposition" (JArr []));
      ("all_images", JArr srcs) ] in
  let embedding :=
    generate_embedding (embedding_generator self) image_url in
  tags ← fabric_tags cats;
  Ret (Some (ProductData.make
               ("cos_" +:+ py_str product_id) product_url image_url title
               gender price "EUR" category (Some (json_dumps metadata))
               embedding
               (match tags with [] => None | _ => Some tags end))).

(** [process_product]: the handler turns every exception of the body
    into [None]. *)
Definition process_product `{PyRuntime} (self : COSDataProcessor)
    (product_json : dict) : option ProductData.t :=
  match process_product_try self product_json with
  | Ret r => r
  | Raise => None
  end.

(** An element of [items] that is not a dict has no [get]: the exception
    raised in the body is caught, and the handler's own
    [product_json.get] raises again, out of [process_product]. *)
Definition process_item `{PyRuntime} (self : COSDataProcessor)
    (item : json) : exc (option ProductData.t) :=
  match item with
  | JObj fields => Ret (process_product self fields)
  | _ => Raise
  end.

Fixpoint process_items `{PyRuntime} (self : COSDataProcessor)
    (items : list json) : exc (list ProductData.t) :=
  match items with
  | [] => Ret []
  | item :: rest =>
      product ← process_item self item;
      products ← process_items self rest;
      Ret (match product with
           | Some p => p :: products
           | None => products
           end)
  end.

(** [COSDataProcessor.process_json_response] *)
Definition process_json_response `{PyRuntime} (self : COSDataProcessor)
    (json_data : json) : exc (list ProductData.t) :=
  items ← py_get json_data "items" (JArr []);
  elements ← py_iter items;
  process_items self elements.

(** ** [SupabaseImporter] *)

(** The row sent to the store: every field of the product and the time
    of the write. *)
Module ProductDict.
Record t := mk {
  id : string;
  source : string;
  product_url : string;
  affiliate_url : option string;
  image_url : json;
  brand : string;
  title : string;
  description : option string;
  category : option string;
  gender : string;
  price : PyFloat;
  currency : string;
  metadata : option string;
  size : option string;
  second_hand : bool;
  embedding : option Embedding;
  country : string;
  compressed_image_url : option string;
  tags : option (list string);
  created_at : string
}.

(** The columns of the unique constraint named in [on_conflict]. *)
Definition key (row : t) : string * string := (source row, product_url row).
End ProductDict.

Definition product_dict (product : ProductData.t) (now : string)
  : ProductDict.t :=
  {| ProductDict.id := ProductData.id product;
     ProductDict.source := ProductData.source product;
     ProductDict.product_url := ProductData.product_url product;
     ProductDict.affiliate_url := ProductData.affiliate_url product;
     ProductDict.image_url := ProductData.image_url product;
     ProductDict.brand := ProductData.brand product;
     ProductDict.title := ProductData.title product;
     ProductDict.description := ProductData.description product;
     ProductDict.category := ProductData.category product;
     ProductDict.gender := ProductData.gender product;
     ProductDict.price := ProductData.price product;
     ProductDict.currency := ProductData.currency product;
     ProductDict.metadata := ProductData.metadata product;
     ProductDict.size := ProductData.size product;
     ProductDict.second_hand := ProductData.second_hand product;
     ProductDict.embedding := ProductData.embedding product;
     ProductDict.country := ProductData.country product;
     ProductDict.compressed_image_url :=
       ProductData.compressed_image_url product;
     ProductDict.tags := ProductData.tags product;
     ProductDict.created_at := now |}.

(** The counters [import_products] returns. *)
Record Results := mkResults {
  inserted : nat;
  updated : nat;
  errors : nat
}.

Definition count_inserted (r : Results) : Results :=
  {| inserted := S (inserted r); updated := updated r; errors := errors r |}.

Definition count_error (r : Results) : Results :=
  {| inserted := inserted r; updated := updated r; errors := S (errors r) |}.

(** What the importer reaches outside the process, over a state [W] of
    that outside: the clock read by [datetime.utcnow().isoformat()], and
    the store behind
    [client.table("products").upsert(row, on_conflict="source,product_url").execute()],
    which answers with [response.data] or raises. *)
Record SupabaseImporter (W : Type) := {
  utcnow : W -> string * W;
  upsert : ProductDict.t -> W -> exc (list ProductDict.t) * W
}.
Arguments utcnow {W} _ _.
Arguments upsert {W} _ _ _.

Section ImportProducts.
Context {W : Type} (self : SupabaseImporter W).

(** One turn of the loop of [import_products]. *)
Definition import_one (st : Results * W) (product : ProductData.t)
  : Results * W :=
  let '(results, w) := st in
  let '(now, w) := utcnow self w in
  match upsert self (product_dict product now) w with
  | (Ret (_ :: _), w) => (count_inserted results, w)
  | (Ret [], w) => (count_error results, w)
  | (Raise, w) => (count_error results, w)
  end.

(** [SupabaseImporter.import_products] *)
Definition import_products (products : list ProductData.t) (w : W)
  : Results * W :=
  fold_left import_one products (mkResults 0 0 0, w).
End ImportProducts.

(** ** [COSScraper] *)

(** [products[:limit]] *)
Definition slice_to {A} (l : list A) (limit : Z) : list A :=
  if 0 <=? limit then take (Z.to_nat limit) l
  else take (length l - Z.to_nat (- limit)) l.

(** [if limit: products = products[:limit]], for [limit: Optional[int]]. *)
Definition limit_products {A} (limit : option Z) (products : list A)
  : list A :=
  match limit with
  | Some n => if negb (n =? 0) then slice_to products n else products
  | None => products
  end.

(** The scraper with the fetch layer it reads documents through: a file
    that cannot be read or parsed, or a request that fails, raises. *)
Record COSScraper (W : Type) := {
  processor : COSDataProcessor;
  importer : SupabaseImporter W;
  load_json_from_file : string -> exc json;
  fetch_json_from_url : string -> exc json
}.
Arguments processor {W} _.
Arguments importer {W} _.
Arguments load_json_from_file {W} _ _.
Arguments fetch_json_from_url {W} _ _.

Section Scrape.
Context `{PyRuntime} {W : Type} (self : COSScraper W).

(** [COSScraper.scrape_from_json_file] *)
Definition scrape_from_json_file (json_file_path : string)
    (limit : option Z) (w : W) : exc (Results * W) :=
  json_data ← load_json_from_file self json_file_path;
  products ← process_json_response (processor self) json_data;
  let products := limit_products limit products in
  Ret (import_products (importer self) products w).

(** [COSScraper.scrape_from_json_url] *)
Definition scrape_from_json_url (json_url : string)
    (limit : option Z) (w : W) : exc (Results * W) :=
  json_data ← fetch_json_from_url self json_url;
  products ← process_json_response (processor self) json_data;
  let products := limit_products limit products in
  Ret (import_products (importer self) products w).
End Scrape.

(** ** A store with a unique constraint on [(source, product_url)] *)

(** How the store answers one write. *)
Inductive Answer : Type :=
| Commit      (* the row is written and returned in [response.data] *)
| NoData      (* nothing written, [response.data] is empty *)
| Failure.    (* nothing written, [execute] raises *)

(** The outside of the importer: the table, one row per key; the number
    of clock readings so far; the rows submitted so far, oldest first. *)
Record World := mkWorld {
  table : gmap (string * string) ProductDict.t;
  ticks : nat;
  calls : list ProductDict.t
}.

(** A store whose [n]-th write is answered by [script n], on a clock whose
    [n]-th reading is [clock n].  A committed write replaces the whole
    row under its key, or adds the row when the key is new. *)
Definition scripted (clock : nat -> string) (script : nat -> Answer)
  : SupabaseImporter World :=
  {| utcnow := fun w =>
       (clock (ticks w),
        {| table := table w; ticks := S (ticks w); calls := calls w |});
     upsert := fun row w =>
       let log := (calls w ++ [row])%list in
       match script (length (calls w)) with
       | Commit =>
           (Ret [row],
            {| table := <[ProductDict.key row := row]> (table w);
               ticks := ticks w; calls := log |})
       | NoData =>
           (Ret [], {| table := table w; ticks := ticks w; calls := log |})
       | Failure =>
           (Raise, {| table := table w; ticks := ticks w; calls := log |})
       end |}.

Definition reliable (clock : nat -> string) : SupabaseImporter World :=
  scripted clock (fun _ => Commit).

(** ** Sample collaborators and listings *)

Definition stub_runtime : PyRuntime :=
  {| py_repr := fun _ => "<object>"; json_dumps := fun _ => "<json>" |}.

Definition failing_generator : COSEmbeddingGenerator :=
  {| generate_embedding := fun _ => None |}.

Definition constant_generator : COSEmbeddingGenerator :=
  {| generate_embedding := fun _ => Some [1 # 2; 1 # 4]%Q |}.

(** A listing with an id, a link, a primary image, a name and category
    labels, to which [extra] fields are added in front. *)
Definition listing (external_id : string) (categories : list string)
    (extra : dict) : dict :=
  (extra ++
   [ ("id", JStr external_id);
     ("uri", JStr "product/wool-coat.html");
     ("primaryImage", JObj [("src", JStr "https://media.cos.com/coat.jpg")]);
     ("name", JStr " Wool Coat ");
     ("categories", JArr (map JStr categories));
     ("categoryUri", JStr "women/coats-and-jackets") ])%list.

(** ** Notions the properties are stated with *)

(** The keyword a label contributes to [tags]: the first of cashmere,
    wool, cotton that occurs in it. *)
Definition first_fabric (label : string) : option string :=
  if contains "cashmere" (lower label) then Some "cashmere"
  else if contains "wool" (lower label) then Some "wool"
  else if contains "cotton" (lower label) then Some "cotton"
  else None.

(** The words of a label, split at white space. *)
Fixpoint tokens (s : string) : list string :=
  match s with
  | "" => []
  | String c rest =>
      if is_space c then tokens rest
      else
        match rest with
        | "" => [String c ""]
        | String d _ =>
            if is_space d then String c "" :: tokens rest
            else
              match tokens rest with
              | t :: ts => String c t :: ts
              | [] => [String c ""]
              end
        end
  end%string.

(** The gender rule in the specification's words, not the code's: MAN
    when a label has a token that indicates "men's", read here as a word
    that starts with "men" in lower case (men, men's, mens, menswear);
    WOMAN otherwise. *)
Definition spec_gender (labels : list string) : string :=
  if existsb
       (fun label =>
          existsb (fun t => String.prefix "men" (lower t)) (tokens label))
       labels
  then "MAN" else "WOMAN".

(** The rows [import_products] builds for [products] when the clock has
    been read [start] times. *)
Definition rows_from (clock : nat -> string) (start : nat)
    (products : list ProductData.t) : list ProductDict.t :=
  imap (fun i p => product_dict p (clock (start + i)%nat)) products.

Definition committed (a : Answer) : bool :=
  match a with
  | Commit => true
  | _ => false
  end.

(** A scraper that reads [document] whatever the path or address, and
    writes to a scripted store. *)
Definition recording_scraper (g : COSEmbeddingGenerator)
    (clock : nat -> string) (script : nat -> Answer) (document : json)
  : COSScraper World :=
  {| processor := {| embedding_generator := g |};
     importer := scripted clock script;
     load_json_from_file := fun _ => Ret document;
     fetch_json_from_url := fun _ => Ret document |}.

(** A document of [n] listings that all normalise. *)
Definition catalogue (n : nat) : json :=
  JObj [("items",
         JArr (map (fun i => JObj (listing (pretty i) ["Knitwear"] []))
                   (seq 0 n)))].

(** The natural key of a product. *)
Definition natural_key (p : ProductData.t) : string * string :=
  (ProductData.source p, ProductData.product_url p).

(** Writing rows one after the other, each replacing the row of its
    key. *)
Definition upsert_all (rows : list ProductDict.t)
    (t : gmap (string * string) ProductDict.t)
  : gmap (string * string) ProductDict.t :=
  fold_left (fun t row => <[ProductDict.key row := row]> t) rows t.

(** A row without the time of its write. *)
Definition without_time (row : ProductDict.t) : ProductDict.t :=
  product_dict
    {| ProductData.id := ProductDict.id row;
       ProductData.product_url := ProductDict.product_url row;
       ProductData.image_url := ProductDict.image_url row;
       ProductData.title := ProductDict.title row;
       ProductData.gender := ProductDict.gender row;
       ProductData.price := ProductDict.price row;
       ProductData.currency := ProductDict.currency row;
       ProductData.source := ProductDict.source row;
       ProductData.affiliate_url := ProductDict.affiliate_url row;
       ProductData.brand := ProductDict.brand row;
       ProductData.description := ProductDict.description row;
       ProductData.category := ProductDict.category row;
       ProductData.metadata := ProductDict.metadata row;
       ProductData.size := ProductDict.size row;
       ProductData.second_hand := ProductDict.second_hand row;
       ProductData.embedding := ProductDict.embedding row;
       ProductData.country := ProductDict.country row;
       ProductData.compressed_image_url :=
         ProductDict.compressed_image_url row;
       ProductData.tags := ProductDict.tags row |} "".

(** ** [COSScraper.scrape_from_api], [load_config] and [main] *)

Section ScrapeFromApi.
Context `{PyRuntime} {W : Type} (self : COSScraper W).

(** [COSScraper.scrape_from_api]. The request goes through a session of
    its own, [session_get]; whatever is raised by it or while the products
    are processed is caught, and answered with one error. *)
Definition scrape_from_api (session_get : string -> exc json)
    (api_url : string) (w : W) : Results * W :=
  match
    json_data ← session_get api_url;
    process_json_response (processor self) json_data
  with
  | Ret products => import_products (importer self) products w
  | Raise => ({| inserted := 0; updated := 0; errors := 1 |}, w)
  end.
End ScrapeFromApi.

Definition add_results (total results : Results) : Results :=
  {| inserted := inserted total + inserted results;
     updated := updated total + updated results;
     errors := errors total + errors results |}%nat.

Section RunScraper.
Context `{PyRuntime} {W : Type} (self : COSScraper W).

(** One turn of either loop of [run_scraper]: the counters of the source
    are added to the totals, and a source that raises adds one error. *)
Definition run_source (scrape : string -> option Z -> W -> exc (Results * W))
    (limit : option Z) (st : Results * W) (source : string)
  : Results * W :=
  let '(total_results, w) := st in
  match scrape source limit w with
  | Ret (results, w) => (add_results total_results results, w)
  | Raise => (count_error total_results, w)
  end.

(** [run_scraper], the function [main] runs: the files, then the
    addresses. [limit] is an integer or [None], as [--limit] gives it. *)
Definition run_scraper (files_to_scrape urls_to_scrape : list string)
    (limit : option Z) (w : W) : Results * W :=
  fold_left (run_source (scrape_from_json_url self) limit) urls_to_scrape
    (fold_left (run_source (scrape_from_json_file self) limit)
       files_to_scrape (mkResults 0 0 0, w)).
End RunScraper.

(** What [load_config] finds under the name config.json. *)
Inductive ConfigFile : Type :=
| Missing
| Unparseable
| Parsed (config : json).

Definition default_config : json :=
  JObj [ ("urls", JArr [JStr "PASTE_YOUR_JSON_URLS_HERE"]);
         ("limit", JNull);
         ("run_on_push", JBool true) ].

(** [load_config]: the configuration, or [None] for a file that is not
    JSON; a missing file is written with the default configuration, which
    is returned. *)
Definition load_config (file : ConfigFile) : option json * ConfigFile :=
  match file with
  | Parsed config => (Some config, file)
  | Missing => (Some default_config, Parsed default_config)
  | Unparseable => (None, file)
  end.

(** The arguments of the command line, as [argparse] gives them. *)
Module Args.
Record t := mk {
  limit : option Z;
  json_file : option string;
  json_url : option string;
  config : bool
}.
End Args.

(** What [main] does after it has read its arguments. *)
Inductive Plan : Type :=
| Run (files_to_scrape urls_to_scrape : list string) (limit : json)
| NoConfig      (* [load_config] gave nothing: return *)
| NoSources     (* no address and no file left in the configuration *)
| Usage.        (* the branch that prints the usage examples *)

(** [bool(a)] for an optional text argument. *)
Definition given (a : option string) : bool :=
  match a with
  | Some s => negb (String.eqb s "")
  | None => false
  end.

Definition text_of (a : option string) : string :=
  match a with
  | Some s => s
  | None => ""
  end.

(** [[x for x in entries if not x.startswith("PASTE_")]] *)
Fixpoint without_placeholders (entries : list json) : exc (list string) :=
  match entries with
  | [] => Ret []
  | entry :: rest =>
      s ← as_str entry;
      more ← without_placeholders rest;
      Ret (if String.prefix "PASTE_" s then more else s :: more)
  end.

(** [main], from the arguments to the lists [run_scraper] works on;
    [loaded] is what [load_config()] returns, called in the first branch
    only. An exception here is not caught. *)
Definition main_plan (args : Args.t) (loaded : option json) : exc Plan :=
  let limit :=
    match Args.limit args with
    | Some n => JInt n
    | None => JNull
    end in
  if Args.config args
     || (negb (given (Args.json_file args))
         && negb (given (Args.json_url args)))
  then
    match loaded with
    | None => Ret NoConfig
    | Some config =>
        if negb (truthy config) then Ret NoConfig else
        urls ← py_get config "urls" (JArr []);
        files ← py_get config "files" (JArr []);
        limit ←
          (match Args.limit args with
           | None => py_get config "limit" JNull
           | Some _ => Ret limit
           end);
        url_entries ← py_iter urls;
        urls_to_scrape ← without_placeholders url_entries;
        file_entries ← py_iter files;
        files_to_scrape ← without_placeholders file_entries;
        match urls_to_scrape, files_to_scrape with
        | [], [] => Ret NoSources
        | _, _ => Ret (Run files_to_scrape urls_to_scrape limit)
        end
    end
  else if given (Args.json_url args)
  then Ret (Run [] [text_of (Args.json_url args)] limit)
  else if given (Args.json_file args)
  then Ret (Run [text_of (Args.json_file args)] [] limit)
  else Ret Usage.

(** ** Further notions the properties are stated with *)

(** How often a character occurs in a text. *)
Fixpoint occurrences (c : ascii) (s : string) : nat :=
  match s with
  | "" => O
  | String d rest =>
      ((if Ascii.eqb d c then 1 else 0) + occurrences c rest)%nat
  end%string.

(** The products a source hands to the sink: its document read through
    [load], normalised and limited. *)
Definition source_batch `{PyRuntime} (processor : COSDataProcessor)
    (load : string -> exc json) (limit : option Z) (source : string)
  : exc (list ProductData.t) :=
  json_data ← load source;
  products ← process_json_response processor json_data;
  Ret (limit_products limit products).

(** What a source adds to the sum of the counters: its products, or one
    error when it raises. *)
Definition batch_weight (batch : exc (list ProductData.t)) : nat :=
  match batch with
  | Ret products => length products
  | Raise => 1%nat
  end.

Definition batch_products (batch : exc (list ProductData.t))
  : list ProductData.t :=
  match batch with
  | Ret products => products
  | Raise => []
  end.

(** * Properties *)

(** ** The text and number operations on sample values *)

Example replace_euro_and_comma :
  replace "," "." (replace "€" "" "€1.299,00") = "1.299.00".
Proof. reflexivity. Qed.

Example strip_both_ends : strip "  Wool Coat
" = "Wool Coat".
Proof. reflexivity. Qed.

Example category_from_uri :
  title_case (replace "-" " " (last_segment "/" "women/coats-and-jackets"))
  = "Coats And Jackets".
Proof. reflexivity. Qed.

Example float_grammar :
  py_float "1_000.5e-1" = Some (Fin (2001 # 20))
  /\ py_float " -INF " = Some (Inf true)
  /\ py_float ".5" = Some (Fin (1 # 2))
  /\ py_float "1." = Some (Fin 1)
  /\ py_float "1.299.00" = None
  /\ py_float "." = None
  /\ py_float "12 EUR" = None.
Proof. vm_compute. repeat split. Qed.

Example slice_negative : slice_to [1; 2; 3; 4]%Z (-1) = [1; 2; 3]%Z.
Proof. reflexivity. Qed.

Example str_of_number_id : @py_str stub_runtime (JInt (-42)) = "-42".
Proof. reflexivity. Qed.

(** ** Texts *)

Lemma app_empty (s : string) : "" +:+ s = s.
Proof. reflexivity. Qed.

Lemma app_String (c : ascii) (a s : string) :
  String c a +:+ s = String c (a +:+ s).
Proof. reflexivity. Qed.

Lemma prefix_app (n t : string) : String.prefix n (n +:+ t) = true.
Proof.
  induction n as [|c n IH]; rewrite ?app_empty, ?app_String; simpl.
  - destruct t; reflexivity.
  - rewrite IH. destruct (ascii_dec c c); [reflexivity | contradiction].
Qed.

Lemma prefix_split (n h : string) :
  String.prefix n h = true -> exists t, h = n +:+ t.
Proof.
  revert h. induction n as [|c n IH]; intros h Hp.
  - exists h. reflexivity.
  - destruct h as [|d h]; simpl in Hp; [discriminate|].
    destruct (ascii_dec c d) as [->|]; [|discriminate].
    destruct (IH h Hp) as [t ->]. exists t. reflexivity.
Qed.

Lemma contains_prefix (n h : string) :
  String.prefix n h = true -> contains n h = true.
Proof. intros Hp. destruct h; cbn [contains]; rewrite Hp; reflexivity. Qed.

Lemma contains_app (a n b : string) : contains n (a +:+ n +:+ b) = true.
Proof.
  induction a as [|c a IH]; rewrite ?app_empty, ?app_String; cbn [contains].
  - apply contains_prefix, prefix_app.
  - rewrite IH. apply orb_true_r.
Qed.

Lemma contains_split (n h : string) :
  contains n h = true -> exists a b, h = a +:+ n +:+ b.
Proof.
  induction h as [|c h IH]; cbn [contains]; intros Hc.
  - rewrite orb_false_r in Hc. destruct (prefix_split _ _ Hc) as [t Ht].
    exists "", t. exact Ht.
  - apply orb_true_iff in Hc as [Hp|Hr].
    + destruct (prefix_split _ _ Hp) as [t Ht]. exists "", t. exact Ht.
    + destruct (IH Hr) as (a & b & ->). exists (String c a), b. reflexivity.
Qed.

Lemma string_app_assoc (a b c : string) : (a +:+ b) +:+ c = a +:+ b +:+ c.
Proof.
  induction a as [|x a IH]; rewrite ?app_empty, ?app_String; cbn [lower];
    rewrite ?app_String; [reflexivity | now rewrite IH].
Qed.

Lemma lower_app (a b : string) : lower (a +:+ b) = lower a +:+ lower b.
Proof.
  induction a as [|x a IH]; rewrite ?app_empty, ?app_String; cbn [lower];
    rewrite ?app_String; [reflexivity | now rewrite IH].
Qed.

(** A label with "Women" in it has "men" in its lower-case form. *)
Lemma women_has_men (a b : string) :
  contains "men" (lower (a +:+ "Women" +:+ b)) = true.
Proof.
  rewrite !lower_app.
  change (lower "Women") with ("wo" +:+ "men").
  rewrite (string_app_assoc "wo" "men"), <- (string_app_assoc (lower a) "wo").
  apply contains_app.
Qed.

(** ** What a listing that gives a product looks like *)

Lemma bind_Ret {A B} (m : exc A) (f : A -> exc B) (b : B) :
  m ≫= f = Ret b -> exists a, m = Ret a /\ f a = Ret b.
Proof.
  destruct m as [a|]; [|discriminate]. intros Hf. exists a. split; [reflexivity | exact Hf].
Qed.

Ltac exc_simpl :=
  repeat match goal with
  | |- context [mbind ?f (Ret ?a)] =>
      change (mbind f (Ret a)) with (f a); cbv beta
  | |- context [@mbind exc _ ?A ?B ?f Raise] =>
      change (@mbind exc _ A B f Raise) with (@Raise B)
  end.

Ltac bind_inv H a Ha :=
  apply bind_Ret in H as (a & Ha & H); cbv beta in H.

Section Normalizer.
Context `{PyRuntime} (self : COSDataProcessor).

(** The loop over the labels ends normally only when every element is a
    text. *)
Lemma fabric_tags_labels (cats : list json) (tags : list string) :
  fabric_tags cats = Ret tags ->
  exists labels, cats = map JStr labels.
Proof.
  revert tags. induction cats as [|cat cats IH]; intros tags Ht.
  - exists []. reflexivity.
  - simpl in Ht. destruct cat; try discriminate Ht.
    unfold mbind, exc_bind in Ht; simpl in Ht.
    destruct (fabric_tags cats) as [more|] eqn:E; [|discriminate Ht].
    destruct (IH more eq_refl) as [labels ->].
    exists (s :: labels). reflexivity.
Qed.

Lemma process_product_Some (product_json : dict) (p : ProductData.t) :
  process_product self product_json = Some p ->
  exists image_url name cats is_men price_str category srcs tags,
    truthy (dict_get product_json "id" (JStr "")) = true /\
    truthy image_url = true /\
    as_str (dict_get product_json "name" (JStr "")) = Ret name /\
    strip name <> "" /\
    py_iter (dict_get product_json "categories" (JArr [])) = Ret cats /\
    any_men cats = Ret is_men /\
    price_text (dict_get product_json "price" (JStr "")) = Ret price_str /\
    fabric_tags cats = Ret tags /\
    p = ProductData.make
          ("cos_" +:+ py_str (dict_get product_json "id" (JStr "")))
          (let uri := dict_get product_json "uri" (JStr "") in
           if truthy uri then "https://www.cos.com/en-eu/" +:+ py_str uri
           else "")
          image_url (strip name)
          (if is_men then "MAN" else "WOMAN")
          (parse_price price_str) "EUR" category
          (Some (json_dumps (JObj
            [ ("centra_product_id",
                 dict_get product_json "centraProductId" JNull);
              ("sku", dict_get product_json "sku" JNull);
              ("product_sku", dict_get product_json "product_sku" JNull);
              ("variants_count",
                 dict_get product_json "variantsCount" JNull);
              ("is_new", dict_get product_json "isNew" (JBool false));
              ("is_on_sale",
                 dict_get product_json "isOnSale" (JBool false));
              ("categories",
                 dict_get product_json "categories" (JArr []));
              ("sustainability_composition",
                 dict_get product_json "sustainabilityComposition"
                   (JArr []));
              ("all_images", JArr srcs) ])))
          (generate_embedding (embedding_generator self) image_url)
          (match tags with [] => None | _ => Some tags end).
Proof.
  unfold process_product. intros Hp.
  destruct (process_product_try self product_json) as [r|] eqn:Ht;
    [subst r | discriminate Hp].
  unfold process_product_try in Ht.
  destruct (truthy (dict_get product_json "id" (JStr ""))) eqn:Hid;
    simpl negb in Ht; cbv iota in Ht; [|discriminate Ht].
  bind_inv Ht primary Hprimary.
  bind_inv Ht image_url Himage.
  destruct (truthy image_url) eqn:Himg;
    simpl negb in Ht; cbv iota in Ht; [|discriminate Ht].
  bind_inv Ht name Hname.
  destruct (String.eqb (strip name) "") eqn:Htitle; [discriminate Ht|].
  bind_inv Ht cats Hcats.
  bind_inv Ht is_men Hmen.
  bind_inv Ht price_str Hprice.
  bind_inv Ht has_slash Hslash.
  bind_inv Ht category Hcategory.
  bind_inv Ht images Himages.
  bind_inv Ht srcs Hsrcs.
  bind_inv Ht tags Htags.
  injection Ht as <-.
  exists image_url, name, cats, is_men, price_str, category, srcs, tags.
  repeat split; try assumption.
  intros Hempty. rewrite Hempty in Htitle. discriminate Htitle.
Qed.
(** The generator decides the [embedding] field and nothing else. *)
Lemma process_product_try_generator (g : COSEmbeddingGenerator)
    (product_json : dict) :
  process_product_try {| embedding_generator := g |} product_json =
  match process_product_try self product_json with
  | Ret (Some p) =>
      Ret (Some (ProductData.with_embedding
                   (generate_embedding g (ProductData.image_url p)) p))
  | other => other
  end.
Proof.
  unfold process_product_try.
  repeat first
    [ reflexivity
    | match goal with
      | |- mbind _ ?m = _ => destruct m; exc_simpl
      | |- (if ?b then _ else _) = _ => destruct b
      end ].
Qed.

Lemma process_product_generator (g : COSEmbeddingGenerator)
    (product_json : dict) (p : ProductData.t) :
  process_product self product_json = Some p ->
  process_product {| embedding_generator := g |} product_json =
  Some (ProductData.with_embedding
          (generate_embedding g (ProductData.image_url p)) p).
Proof.
  unfold process_product. rewrite process_product_try_generator.
  destruct (process_product_try self product_json) as [[q|]|];
    intros Hp; try discriminate Hp.
  injection Hp as ->. reflexivity.
Qed.
End Normalizer.

(** ** Gender and tags of a product *)

Lemma any_men_labels (labels : list string) :
  any_men (map JStr labels) =
  Ret (existsb (fun label => contains "men" (lower label)) labels).
Proof.
  induction labels as [|label labels IH]; [reflexivity|].
  cbn [map any_men existsb as_str]. exc_simpl.
  destruct (contains "men" (lower label)); [reflexivity | exact IH].
Qed.

Lemma fabric_tags_labels_omap (labels : list string) :
  fabric_tags (map JStr labels) = Ret (omap first_fabric labels).
Proof.
  induction labels as [|label labels IH]; [reflexivity|].
  cbn [map fabric_tags as_str]. exc_simpl. rewrite IH. exc_simpl.
  change (omap first_fabric (label :: labels))
    with (match first_fabric label with
          | Some t => t :: omap first_fabric labels
          | None => omap first_fabric labels
          end).
  generalize (omap first_fabric labels). intros more.
  unfold first_fabric.
  destruct (contains "cashmere" (lower label)); [reflexivity|].
  destruct (contains "wool" (lower label)); [reflexivity|].
  destruct (contains "cotton" (lower label)); reflexivity.
Qed.

Section NormalizedFields.
Context `{PyRuntime} (self : COSDataProcessor).
Variables (product_json : dict) (p : ProductData.t).
Hypothesis Hp : process_product self product_json = Some p.

(** The category value of a listing that gives a product is a
    collection of texts, and decides gender and tags as follows. *)
Lemma gender_and_tags :
  exists labels,
    py_iter (dict_get product_json "categories" (JArr [])) =
      Ret (map JStr labels) /\
    ProductData.gender p =
      (if existsb (fun label => contains "men" (lower label)) labels
       then "MAN" else "WOMAN") /\
    ProductData.tags p =
      match omap first_fabric labels with
      | [] => None
      | found => Some found
      end.
Proof.
  destruct (process_product_Some self _ _ Hp)
    as (image_url & name & cats & is_men & price_str & category & srcs
        & tags & _ & _ & _ & _ & Hcats & Hmen & _ & Htags & ->).
  destruct (fabric_tags_labels _ _ Htags) as [labels ->].
  rewrite any_men_labels in Hmen. injection Hmen as <-.
  rewrite fabric_tags_labels_omap in Htags. injection Htags as <-.
  exists labels. repeat split; [exact Hcats|].
  simpl. destruct (omap first_fabric labels); reflexivity.
Qed.
End NormalizedFields.

(** C9. A listing that normalises and has a category label with "men"
    in its lower-case form (as every label with "Women" in it has, for
    one "Women's Dresses") gives a product of gender MAN. *)
Theorem men_substring_gives_MAN `{PyRuntime} (self : COSDataProcessor)
    (product_json : dict) (p : ProductData.t) (cats : list json)
    (label : string) :
  process_product self product_json = Some p ->
  py_iter (dict_get product_json "categories" (JArr [])) = Ret cats ->
  JStr label ∈ cats ->
  contains "men" (lower label) = true \/
    (exists a b, label = a +:+ "Women" +:+ b) ->
  ProductData.gender p = "MAN".
Proof.
  intros Hp Hcats Hin Hlabel.
  destruct (gender_and_tags self _ _ Hp) as (labels & Hiter & -> & _).
  rewrite Hiter in Hcats. injection Hcats as <-.
  assert (Hmen : contains "men" (lower label) = true).
  { destruct Hlabel as [Hmen | (a & b & ->)];
      [exact Hmen | apply women_has_men]. }
  apply list_elem_of_fmap in Hin as (label' & [= <-] & Hin).
  replace (existsb _ labels) with true; [reflexivity|].
  symmetry. apply existsb_exists. exists label.
  split; [apply list_elem_of_In, Hin | exact Hmen].
Qed.

Lemma men_substring_gives_MAN_witness :
  exists p,
    @process_product stub_runtime {| embedding_generator := failing_generator |}
      (listing "0652371001" ["Women's Dresses"] []) = Some p /\
    ProductData.gender p = "MAN".
Proof.
  eexists. split; [vm_compute; reflexivity|].
  eapply (@men_substring_gives_MAN stub_runtime
            {| embedding_generator := failing_generator |}
            (listing "0652371001" ["Women's Dresses"] []) _
            [JStr "Women's Dresses"] "Women's Dresses").
  - vm_compute; reflexivity.
  - reflexivity.
  - apply list_elem_of_here.
  - right. exists "", "'s Dresses". reflexivity.
Defined.

(** ** The display identifier *)

(** C3, as the code has it. The [id] of a product is "cos_" followed by
    the text of the listing's external id, which is that id itself when
    it is a text; the prefix is fixed and is not the [source] field,
    whose value is "scraper". *)
Theorem id_is_cos_prefixed `{PyRuntime} (self : COSDataProcessor)
    (product_json : dict) (p : ProductData.t) :
  process_product self product_json = Some p ->
  ProductData.id p = "cos_" +:+ py_str (dict_get product_json "id" (JStr ""))
  /\ ProductData.source p = "scraper"
  /\ forall external_id,
       dict_get product_json "id" (JStr "") = JStr external_id ->
       external_id <> "" /\ ProductData.id p = "cos_" +:+ external_id.
Proof.
  intros Hp.
  destruct (process_product_Some self _ _ Hp)
    as (image_url & name & cats & is_men & price_str & category & srcs
        & tags & Hid & _ & _ & _ & _ & _ & _ & _ & ->).
  split; [reflexivity|]. split; [reflexivity|].
  intros external_id Hext. rewrite Hext in Hid |- *.
  split; [|reflexivity].
  intros ->. discriminate Hid.
Qed.

Lemma id_is_cos_prefixed_witness :
  exists p,
    @process_product stub_runtime {| embedding_generator := failing_generator |}
      (listing "0652371001" ["Knitwear"] []) = Some p /\
    ProductData.id p = "cos_0652371001" /\
    ProductData.source p = "scraper".
Proof.
  eexists. split; [vm_compute; reflexivity|].
  destruct (@id_is_cos_prefixed stub_runtime
              {| embedding_generator := failing_generator |}
              (listing "0652371001" ["Knitwear"] []) _
              ltac:(vm_compute; reflexivity)) as (Hid & Hsource & _).
  split; [exact Hid | exact Hsource].
Defined.

(** C3, as the specification words it, fails: for the external id
    "0652371001" the product's [id] is "cos_0652371001", while its
    [source], an underscore and the external id give
    "scraper_0652371001". *)
Lemma id_is_not_source_prefixed :
  exists p,
    @process_product stub_runtime {| embedding_generator := failing_generator |}
      (listing "0652371001" ["Knitwear"] []) = Some p /\
    ProductData.id p = "cos_0652371001" /\
    ProductData.source p +:+ "_" +:+ "0652371001" = "scraper_0652371001" /\
    ProductData.id p <> ProductData.source p +:+ "_" +:+ "0652371001".
Proof.
  eexists. split; [vm_compute; reflexivity|].
  repeat split. discriminate.
Qed.

(** ** Tags *)

(** C6, as the code has it. [tags] lists, label by label in the order of
    the category list, the first of cashmere, wool, cotton that the label
    contains in lower case: a label gives one keyword at most, and a
    keyword comes once for every label it is first in.  A label with
    "cashmere" in it puts "cashmere" among the tags, and [tags] is [None],
    never an empty list, when no label has a keyword. *)
Theorem tags_first_keyword_per_label `{PyRuntime} (self : COSDataProcessor)
    (product_json : dict) (p : ProductData.t) :
  process_product self product_json = Some p ->
  exists labels,
    py_iter (dict_get product_json "categories" (JArr [])) =
      Ret (map JStr labels) /\
    ProductData.tags p <> Some [] /\
    (ProductData.tags p = None <->
       forall label, label ∈ labels -> first_fabric label = None) /\
    (forall found, ProductData.tags p = Some found ->
       found = omap first_fabric labels) /\
    (forall label, label ∈ labels ->
       contains "cashmere" (lower label) = true ->
       exists found, ProductData.tags p = Some found /\ "cashmere" ∈ found).
Proof.
  intros Hp.
  destruct (gender_and_tags self _ _ Hp) as (labels & Hiter & _ & Htags).
  exists labels. split; [exact Hiter|].
  assert (Hnil : omap first_fabric labels = [] <->
                 forall label, label ∈ labels -> first_fabric label = None).
  { clear. induction labels as [|l labels IH]; simpl.
    - split; [intros _ label Hin; inversion Hin | reflexivity].
    - destruct (first_fabric l) eqn:E.
      + split; [discriminate|]. intros Hall.
        rewrite (Hall l (list_elem_of_here _ _)) in E. discriminate E.
      + rewrite IH. split.
        * intros Hall label Hin. inversion Hin; subst; [exact E | auto].
        * intros Hall label Hin. apply Hall. now apply list_elem_of_further. }
  rewrite Htags. destruct (omap first_fabric labels) as [|t ts] eqn:E.
  - repeat split; try discriminate.
    + intros _. now apply Hnil.
    + intros label Hin Hc. exfalso.
      assert (Hnone : first_fabric label = None)
        by (apply (proj1 Hnil eq_refl), Hin).
      unfold first_fabric in Hnone. rewrite Hc in Hnone. discriminate Hnone.
  - repeat split; try discriminate.
    + intros Hall. apply Hnil in Hall. discriminate Hall.
    + intros found [= <-]. reflexivity.
    + intros label Hin Hc. exists (t :: ts). split; [reflexivity|].
      rewrite <- E. apply list_elem_of_omap. exists label.
      split; [exact Hin|]. unfold first_fabric. now rewrite Hc.
Qed.

Lemma tags_first_keyword_per_label_witness :
  exists labels,
    py_iter (dict_get (listing "0652371001" ["Cashmere Sweater"; "Sale"] [])
               "categories" (JArr [])) = Ret (map JStr labels) /\
    omap first_fabric labels = ["cashmere"].
Proof.
  destruct (@tags_first_keyword_per_label stub_runtime
              {| embedding_generator := failing_generator |}
              (listing "0652371001" ["Cashmere Sweater"; "Sale"] []) _
              ltac:(vm_compute; reflexivity))
    as (labels & Hiter & _ & _ & Hfound & _).
  exists labels. split; [exact Hiter|].
  symmetry. apply Hfound. vm_compute. reflexivity.
Defined.

(** C6, as the specification words it, fails: two labels with cashmere
    in them give the keyword twice. *)
Lemma tags_repeat_keyword :
  exists p,
    @process_product stub_runtime {| embedding_generator := failing_generator |}
      (listing "0652371001" ["Cashmere Sweater"; "Cashmere Scarf"] [])
      = Some p /\
    ProductData.tags p = Some ["cashmere"; "cashmere"] /\
    ~ NoDup ["cashmere"; "cashmere"].
Proof.
  eexists. split; [vm_compute; reflexivity|].
  split; [reflexivity|].
  intros Hnodup. apply NoDup_cons in Hnodup as [Hnotin _].
  apply Hnotin, list_elem_of_here.
Qed.

(** A label with two keywords gives the first only: the cotton of
    "Wool Cotton Blend" is not among the tags. *)
Example tags_skip_second_keyword :
  ProductData.tags <$>
    @process_product stub_runtime {| embedding_generator := failing_generator |}
      (listing "0652371001" ["Wool Cotton Blend"] [])
  = Some (Some ["wool"]).
Proof. vm_compute. reflexivity. Qed.

(** ** Price *)

Example price_euro_comma :
  parse_price <$> price_text (JStr "€129,00") = Ret (Fin 129).
Proof. vm_compute. reflexivity. Qed.

Example price_plain_point :
  parse_price <$> price_text (JStr "199.50") = Ret (Fin (399 # 2)).
Proof. vm_compute. reflexivity. Qed.

Example price_empty : parse_price <$> price_text (JStr "") = Ret (Fin 0).
Proof. vm_compute. reflexivity. Qed.

Example price_not_a_number :
  parse_price <$> price_text (JStr "on request") = Ret (Fin 0).
Proof. vm_compute. reflexivity. Qed.

(** The price of a product comes from a [price] field that is missing or
    holds a text; a text that [float] refuses gives [0.0]. *)
Lemma price_of_product `{PyRuntime} (self : COSDataProcessor)
    (product_json : dict) (p : ProductData.t) :
  process_product self product_json = Some p ->
  exists text,
    dict_get product_json "price" (JStr "") = JStr text /\
    let cleaned := strip (replace "," "." (replace "€" "" text)) in
    ProductData.price p = parse_price cleaned /\
    (py_float cleaned = None -> ProductData.price p = Fin 0).
Proof.
  intros Hp.
  destruct (process_product_Some self _ _ Hp)
    as (image_url & name & cats & is_men & price_str & category & srcs
        & tags & _ & _ & _ & _ & _ & _ & Hprice & _ & ->).
  destruct (dict_get product_json "price" (JStr "")) as [| | | |text| |];
    try discriminate Hprice.
  injection Hprice as <-. exists text.
  split; [reflexivity|]. split; [reflexivity|].
  cbn [ProductData.price ProductData.make]. unfold parse_price.
  intros ->. reflexivity.
Qed.

(** X10. The price text never decides whether a listing gives a product:
    two listings that differ in the text of [price] only are both kept or
    both dropped. *)
Lemma price_text_never_rejects `{PyRuntime} (self : COSDataProcessor)
    (listing1 listing2 : dict) (text1 text2 : string) :
  (forall key default, key <> "price" ->
     dict_get listing2 key default = dict_get listing1 key default) ->
  dict_get listing1 "price" (JStr "") = JStr text1 ->
  dict_get listing2 "price" (JStr "") = JStr text2 ->
  is_Some (process_product self listing1) ->
  is_Some (process_product self listing2).
Proof.
  intros Hsame Hprice1 Hprice2. unfold process_product, process_product_try.
  rewrite Hprice1, Hprice2.
  rewrite !(Hsame "id"), !(Hsame "uri"), !(Hsame "primaryImage"),
    !(Hsame "images"), !(Hsame "name"), !(Hsame "categories"),
    !(Hsame "categoryUri"), !(Hsame "centraProductId"), !(Hsame "sku"),
    !(Hsame "product_sku"), !(Hsame "variantsCount"), !(Hsame "isNew"),
    !(Hsame "isOnSale"), !(Hsame "sustainabilityComposition")
    by discriminate.
  cbn [price_text as_str]. exc_simpl.
  repeat match goal with
  | |- is_Some match mbind _ ?m with _ => _ end -> _ =>
      let E := fresh "E" in destruct m eqn:E; exc_simpl; cbv iota
  | |- is_Some match (if ?b then _ else _) with _ => _ end -> _ =>
      let E := fresh "E" in destruct b eqn:E; cbv iota
  end.
  all: intros [q Hq]; try discriminate Hq; clear q Hq.
  all: repeat first
         [ progress unfold price_text
         | progress cbn [as_str]
         | progress exc_simpl
         | progress cbv iota
         | match goal with
           | E : ?m = Ret _ |- context [mbind _ ?m] => rewrite E
           | E : ?b = _ |- context [if ?b then _ else _] => rewrite E
           end ].
  all: eexists; reflexivity.
Qed.

(** C4 at a listing whose [price] is [null]. The [replace] call stands
    before the [try] that catches [TypeError] and [ValueError], so the
    [AttributeError] of a price that is not a text reaches the outer
    handler and the listing gives no product; the same listing without
    the field, or with a text that is not a number, gives a product of
    price [0.0]. *)
Theorem null_price_drops_listing :
  let self := {| embedding_generator := failing_generator |} in
  @process_product stub_runtime self
    (listing "0652371001" ["Coats"] [("price", JNull)]) = None
  /\ @process_product stub_runtime self
       (listing "0652371001" ["Coats"] [("price", JInt 129)]) = None
  /\ ProductData.price <$> @process_product stub_runtime self
       (listing "0652371001" ["Coats"] []) = Some (Fin 0)
  /\ ProductData.price <$> @process_product stub_runtime self
       (listing "0652371001" ["Coats"] [("price", JStr "on request")])
     = Some (Fin 0)
  /\ ProductData.price <$> @process_product stub_runtime self
       (listing "0652371001" ["Coats"] [("price", JStr "€129,00")])
     = Some (Fin 129).
Proof. vm_compute. repeat split. Qed.

(** ** Gender against the specification's wording *)

(** C5 at the label "Women's Dresses". The code looks for the letters
    "men" anywhere in a label, so the "men" inside "Women" makes the
    product MAN, where no word of the label indicates "men's"; on the two
    lists the specification names the code and the wording agree. *)
Theorem womens_label_classified_MAN :
  let self := {| embedding_generator := failing_generator |} in
  ProductData.gender <$> @process_product stub_runtime self
    (listing "0652371001" ["Women's Dresses"] []) = Some "MAN"
  /\ spec_gender ["Women's Dresses"] = "WOMAN"
  /\ ProductData.gender <$> @process_product stub_runtime self
       (listing "0652371001" ["Men's Knitwear"] []) = Some "MAN"
  /\ spec_gender ["Men's Knitwear"] = "MAN"
  /\ ProductData.gender <$> @process_product stub_runtime self
       (listing "0652371001" ["Dresses"] []) = Some "WOMAN"
  /\ spec_gender ["Dresses"] = "WOMAN".
Proof. vm_compute. repeat split. Qed.

(** ** Embedding failure *)

(** C2. When the generator fails on the image of a listing that
    normalises, the listing still gives its product, with no embedding,
    and a sink whose store accepts the row counts it as inserted. *)
Theorem embedding_failure_keeps_record `{PyRuntime}
    (self : COSDataProcessor) (g : COSEmbeddingGenerator)
    (product_json : dict) (p : ProductData.t)
    {W : Type} (sink : SupabaseImporter W) (w w1 w2 : W) (now : string)
    (row : ProductDict.t) (rows : list ProductDict.t) :
  let p' := ProductData.with_embedding None p in
  process_product self product_json = Some p ->
  generate_embedding g (ProductData.image_url p) = None ->
  utcnow sink w = (now, w1) ->
  upsert sink (product_dict p' now) w1 = (Ret (row :: rows), w2) ->
  process_product {| embedding_generator := g |} product_json = Some p'
  /\ ProductData.embedding p' = None
  /\ import_products sink [p'] w =
       ({| inserted := 1; updated := 0; errors := 0 |}, w2).
Proof.
  intros p' Hp Hfail Hnow Hupsert. split; [|split].
  - rewrite (process_product_generator self g _ _ Hp), Hfail. reflexivity.
  - reflexivity.
  - unfold import_products. cbn [fold_left]. unfold import_one.
    rewrite Hnow, Hupsert. reflexivity.
Qed.

Lemma embedding_failure_keeps_record_witness :
  exists p',
    @process_product stub_runtime {| embedding_generator := failing_generator |}
      (listing "0652371001" ["Knitwear"] []) = Some p' /\
    ProductData.embedding p' = None /\
    inserted (fst (import_products (reliable (fun _ => "2025-01-01T00:00:00"))
                     [p'] (mkWorld ∅ 0 []))) = 1%nat.
Proof.
  destruct (@process_product stub_runtime
              {| embedding_generator := constant_generator |}
              (listing "0652371001" ["Knitwear"] [])) as [p|] eqn:Hp;
    [|vm_compute in Hp; discriminate Hp].
  exists (ProductData.with_embedding None p).
  destruct (@embedding_failure_keeps_record stub_runtime
              {| embedding_generator := constant_generator |}
              failing_generator (listing "0652371001" ["Knitwear"] []) p
              World (reliable (fun _ => "2025-01-01T00:00:00"))
              (mkWorld ∅ 0 []) _ _ _ _ _ Hp eq_refl eq_refl eq_refl)
    as (Hkept & Hnone & Hsink).
  split; [exact Hkept|]. split; [exact Hnone|].
  rewrite Hsink. reflexivity.
Defined.

(** ** The sink: every record is tried and counted *)

Local Open Scope nat_scope.
Local Open Scope list_scope.

Section SinkCounts.
Context {W : Type} (sink : SupabaseImporter W).

Lemma import_one_counts (results : Results) (w : W) (p : ProductData.t) :
  let results' := fst (import_one sink (results, w) p) in
  inserted results' + errors results' = S (inserted results + errors results)
  /\ updated results' = updated results.
Proof.
  unfold import_one. destruct (utcnow sink w) as [now w1].
  destruct (upsert sink (product_dict p now) w1) as [[[|row rows]|] w2];
    cbn; split; lia || reflexivity.
Qed.

Lemma import_fold_counts (products : list ProductData.t) (st : Results * W) :
  let results' := fst (fold_left (import_one sink) products st) in
  inserted results' + errors results' =
    inserted (fst st) + errors (fst st) + length products
  /\ updated results' = updated (fst st).
Proof.
  revert st. induction products as [|p products IH]; intros st; cbn.
  - split; [lia | reflexivity].
  - destruct (IH (import_one sink st p)) as [Hsum Hupdated].
    destruct st as [results w].
    destruct (import_one_counts results w p) as [Hone Hsame].
    cbn in *. split; [lia | congruence].
Qed.
End SinkCounts.

Lemma rows_from_cons clock start p products :
  rows_from clock start (p :: products) =
  product_dict p (clock start) :: rows_from clock (S start) products.
Proof.
  unfold rows_from. cbn [imap]. rewrite Nat.add_0_r. f_equal.
  apply imap_ext. intros i q _. cbn. f_equal. f_equal. lia.
Qed.

Lemma scripted_one clock script results w p :
  import_one (scripted clock script) (results, w) p =
  let row := product_dict p (clock (ticks w)) in
  match script (length (calls w)) with
  | Commit =>
      (count_inserted results,
       {| table := <[ProductDict.key row := row]> (table w);
          ticks := S (ticks w); calls := calls w ++ [row] |})
  | _ =>
      (count_error results,
       {| table := table w; ticks := S (ticks w);
          calls := calls w ++ [row] |})
  end.
Proof.
  unfold import_one. cbn. destruct (script (length (calls w))); reflexivity.
Qed.

(** What a run against a scripted store leaves behind: the clock has been
    read once per product, every row has been submitted, in order, and
    the writes answered [Commit] are the ones counted as inserted. *)
Lemma scripted_fold clock script products results w :
  let st := fold_left (import_one (scripted clock script)) products
              (results, w) in
  ticks (snd st) = ticks w + length products
  /\ calls (snd st) = calls w ++ rows_from clock (ticks w) products
  /\ inserted (fst st) = inserted results +
       length (List.filter committed
                 (map script (seq (length (calls w)) (length products))))
  /\ errors (fst st) = errors results +
       length (List.filter (fun a => negb (committed a))
                 (map script (seq (length (calls w)) (length products)))).
Proof.
  revert results w. induction products as [|p products IH]; intros results w.
  - cbn. rewrite app_nil_r. repeat split; lia.
  - cbn [fold_left]. rewrite scripted_one, rows_from_cons.
    cbn [length seq map List.filter].
    destruct (script (length (calls w))) eqn:Hanswer; cbn zeta;
      match goal with
      | |- context [fold_left _ _ (?r, ?w')] =>
          destruct (IH r w') as (Hticks & Hcalls & Hins & Herr)
      end;
      cbn [ticks calls inserted errors count_inserted count_error
           committed negb] in *;
      rewrite Hticks, Hcalls, Hins, Herr, length_app, <- app_assoc;
      cbn [length app]; rewrite Nat.add_1_r; repeat split; lia.
Qed.

(** C8. Whatever the store answers, a record at a time: the counters of
    successes and of failures add up to the number of products, and
    against a store that fails as a script says, every row of the batch
    has been submitted, in order, after the run, the writes that raised
    or returned nothing being the ones counted as errors. *)
Theorem every_record_attempted_and_counted :
  (forall (W : Type) (sink : SupabaseImporter W)
          (products : list ProductData.t) (w : W),
     let results := fst (import_products sink products w) in
     inserted results + errors results = length products
     /\ updated results = 0)
  /\
  (forall (clock : nat -> string) (script : nat -> Answer)
          (products : list ProductData.t) (w : World),
     let run := import_products (scripted clock script) products w in
     let answers := map script (seq (length (calls w)) (length products)) in
     calls (snd run) = calls w ++ rows_from clock (ticks w) products
     /\ inserted (fst run) = length (List.filter committed answers)
     /\ errors (fst run) =
          length (List.filter (fun a => negb (committed a)) answers)).
Proof.
  split.
  - intros W sink products w.
    destruct (import_fold_counts sink products (mkResults 0 0 0, w))
      as [Hsum Hupdated].
    split; [exact Hsum | exact Hupdated].
  - intros clock script products w.
    destruct (scripted_fold clock script products (mkResults 0 0 0) w)
      as (_ & Hcalls & Hins & Herr).
    repeat split; assumption.
Qed.

(** A batch of three whose second write raises: the third row is still
    submitted, and the counters read two inserted, one error. *)
Example failure_in_the_middle :
  let script n := if Nat.eqb n 1 then Failure else Commit in
  let p := ProductData.make "cos_1" "" (JStr "u") "Coat" "WOMAN" (Fin 0)
             "EUR" None None None None in
  let run := import_products (scripted (fun _ => "t") script) [p; p; p]
               (mkWorld ∅ 0 []) in
  fst run = mkResults 2 0 1 /\ length (calls (snd run)) = 3.
Proof. vm_compute. split; reflexivity. Qed.

(** ** The limit *)

Section Limit.
Context `{PyRuntime} {W : Type} (self : COSScraper W).
Variables (json_data : json) (products : list ProductData.t).
Hypothesis Hproducts :
  process_json_response (processor self) json_data = Ret products.

(** Both entry points hand [limit_products limit products] to the
    sink. *)
Lemma scrape_hands_limited (source : string) (limit : option Z) (w : W) :
  (load_json_from_file self source = Ret json_data ->
   scrape_from_json_file self source limit w =
   Ret (import_products (importer self)
          (limit_products limit products) w))
  /\
  (fetch_json_from_url self source = Ret json_data ->
   scrape_from_json_url self source limit w =
   Ret (import_products (importer self)
          (limit_products limit products) w)).
Proof.
  unfold scrape_from_json_file, scrape_from_json_url.
  split; intros ->; exc_simpl; rewrite Hproducts; reflexivity.
Qed.
End Limit.

Lemma limit_products_positive {A} (limit : Z) (l : list A) :
  (0 < limit)%Z -> limit_products (Some limit) l = take (Z.to_nat limit) l.
Proof.
  intros Hpos. unfold limit_products, slice_to.
  destruct (Z.eqb_spec limit 0) as [->|_]; [lia|]. cbn.
  destruct (Z.leb_spec 0 limit); [reflexivity | lia].
Qed.

(** C7. With a positive limit, either entry point gives the sink the
    first [limit] products of the normalised list, in their order (all
    of them when there are fewer): the run is the import of that prefix,
    and a store that records its calls has received the rows of that
    prefix and no other. With a limit of 5 and 20 products, that is 5
    products. *)
Theorem limit_hands_first_records `{PyRuntime} {W : Type}
    (self : COSScraper W) (source : string) (json_data : json)
    (products : list ProductData.t) (limit : Z) (w : W) :
  (0 < limit)%Z ->
  process_json_response (processor self) json_data = Ret products ->
  let handed := take (Z.to_nat limit) products in
  (load_json_from_file self source = Ret json_data ->
   scrape_from_json_file self source (Some limit) w =
   Ret (import_products (importer self) handed w))
  /\ (fetch_json_from_url self source = Ret json_data ->
      scrape_from_json_url self source (Some limit) w =
      Ret (import_products (importer self) handed w))
  /\ (forall clock script (w0 : World),
        calls (snd (import_products (scripted clock script) handed w0)) =
        calls w0 ++ rows_from clock (ticks w0) handed)
  /\ length handed = Nat.min (Z.to_nat limit) (length products)
  /\ (forall i, i < Z.to_nat limit -> handed !! i = products !! i)
  /\ (limit = 5%Z -> length products = 20 -> length handed = 5).
Proof.
  intros Hpos Hproducts handed.
  destruct (scrape_hands_limited self _ _ Hproducts source (Some limit) w)
    as [Hfile Hurl].
  rewrite limit_products_positive in Hfile, Hurl by exact Hpos.
  split; [exact Hfile|]. split; [exact Hurl|]. split; [|split; [|split]].
  - intros clock script w0.
    apply (scripted_fold clock script handed (mkResults 0 0 0) w0).
  - apply length_take.
  - intros i Hi. apply lookup_take_lt, Hi.
  - intros -> Hlen. unfold handed. rewrite length_take, Hlen. reflexivity.
Qed.

Lemma limit_hands_first_records_witness :
  let self := recording_scraper failing_generator (fun _ => "t")
                (fun _ => Commit) (catalogue 20) in
  exists results w,
    @scrape_from_json_file stub_runtime _ self "catalogue.json" (Some 5%Z)
      (mkWorld ∅ 0 []) = Ret (results, w) /\
    map ProductDict.id (calls w) =
      ["cos_0"; "cos_1"; "cos_2"; "cos_3"; "cos_4"].
Proof.
  intros self.
  destruct (@process_json_response stub_runtime (processor self)
              (catalogue 20)) as [products|] eqn:Hproducts;
    [|vm_compute in Hproducts; discriminate Hproducts].
  destruct (@limit_hands_first_records stub_runtime World self
              "catalogue.json" (catalogue 20) products 5%Z
              (mkWorld ∅ 0 []) ltac:(lia) Hproducts)
    as (Hfile & _).
  specialize (Hfile eq_refl).
  eexists _, _. split; [rewrite Hfile; apply f_equal, surjective_pairing|].
  vm_compute in Hproducts. injection Hproducts as <-.
  vm_compute. reflexivity.
Defined.

(** C10. A limit of 0, like no limit, leaves the list as it is: either
    entry point gives the sink every normalised product. *)
Theorem zero_limit_hands_everything `{PyRuntime} {W : Type}
    (self : COSScraper W) (source : string) (json_data : json)
    (products : list ProductData.t) (limit : option Z) (w : W) :
  limit = Some 0%Z \/ limit = None ->
  process_json_response (processor self) json_data = Ret products ->
  limit_products limit products = products
  /\ (load_json_from_file self source = Ret json_data ->
      scrape_from_json_file self source limit w =
      Ret (import_products (importer self) products w))
  /\ (fetch_json_from_url self source = Ret json_data ->
      scrape_from_json_url self source limit w =
      Ret (import_products (importer self) products w))
  /\ (forall clock script (w0 : World),
        calls (snd (import_products (scripted clock script)
                      (limit_products limit products) w0)) =
        calls w0 ++ rows_from clock (ticks w0) products).
Proof.
  intros Hlimit Hproducts.
  assert (Hsame : limit_products limit products = products)
    by (destruct Hlimit as [-> | ->]; reflexivity).
  destruct (scrape_hands_limited self _ _ Hproducts source limit w)
    as [Hfile Hurl].
  rewrite Hsame in Hfile, Hurl |- *.
  repeat split; try assumption.
  intros clock script w0.
  apply (scripted_fold clock script products (mkResults 0 0 0) w0).
Qed.

Lemma zero_limit_hands_everything_witness :
  let self := recording_scraper failing_generator (fun _ => "t")
                (fun _ => Commit) (catalogue 3) in
  exists results w,
    @scrape_from_json_url stub_runtime _ self "https://example.org/items"
      (Some 0%Z) (mkWorld ∅ 0 []) = Ret (results, w) /\
    map ProductDict.id (calls w) = ["cos_0"; "cos_1"; "cos_2"].
Proof.
  intros self.
  destruct (@process_json_response stub_runtime (processor self)
              (catalogue 3)) as [products|] eqn:Hproducts;
    [|vm_compute in Hproducts; discriminate Hproducts].
  destruct (@zero_limit_hands_everything stub_runtime World self
              "https://example.org/items" (catalogue 3) products
              (Some 0%Z) (mkWorld ∅ 0 []) (or_introl eq_refl) Hproducts)
    as (_ & _ & Hurl & _).
  specialize (Hurl eq_refl).
  eexists _, _. split; [rewrite Hurl; apply f_equal, surjective_pairing|].
  vm_compute in Hproducts. injection Hproducts as <-.
  vm_compute. reflexivity.
Defined.

(** ** Ingesting a batch twice *)

Lemma upsert_all_other rows t k :
  k ∉ map ProductDict.key rows -> upsert_all rows t !! k = t !! k.
Proof.
  revert t. induction rows as [|row rows IH]; intros t Hk; [reflexivity|].
  cbn in Hk |- *. apply not_elem_of_cons in Hk as [Hne Hk].
  unfold upsert_all in IH. rewrite IH by exact Hk.
  apply lookup_insert_ne. congruence.
Qed.

Lemma upsert_all_written rows t1 t2 k :
  k ∈ map ProductDict.key rows ->
  upsert_all rows t1 !! k = upsert_all rows t2 !! k.
Proof.
  revert t1 t2. induction rows as [|row rows IH]; intros t1 t2 Hk.
  - inversion Hk.
  - cbn. destruct (decide (k ∈ map ProductDict.key rows)) as [Hin|Hout].
    + apply IH, Hin.
    + apply elem_of_cons in Hk as [->|Hin]; [|contradiction].
      fold (upsert_all rows (<[ProductDict.key row := row]> t1)).
      fold (upsert_all rows (<[ProductDict.key row := row]> t2)).
      rewrite !upsert_all_other by exact Hout.
      rewrite !lookup_insert_eq. reflexivity.
Qed.

Lemma upsert_all_agree rows t1 t2 :
  (forall k, k ∉ map ProductDict.key rows -> t1 !! k = t2 !! k) ->
  upsert_all rows t1 = upsert_all rows t2.
Proof.
  intros Hagree. apply map_eq. intros k.
  destruct (decide (k ∈ map ProductDict.key rows)) as [Hin|Hout].
  - apply upsert_all_written, Hin.
  - rewrite !upsert_all_other by exact Hout. apply Hagree, Hout.
Qed.

(** Last write wins: the row of the last position that holds a key is
    the row found under that key. *)
Lemma upsert_all_last rows t i row :
  rows !! i = Some row ->
  (forall j row', i < j -> rows !! j = Some row' ->
     ProductDict.key row' <> ProductDict.key row) ->
  upsert_all rows t !! ProductDict.key row = Some row.
Proof.
  revert t i. induction rows as [|r rows IH]; intros t i Hi Hlast.
  - discriminate Hi.
  - cbn. fold (upsert_all rows (<[ProductDict.key r := r]> t)).
    destruct i as [|i].
    + injection Hi as ->. rewrite upsert_all_other.
      * apply lookup_insert_eq.
      * intros Hin. apply list_elem_of_fmap in Hin as (row' & Hkey & Hin).
        apply list_elem_of_lookup in Hin as [j Hj].
        apply (Hlast (S j) row'); [lia | exact Hj | congruence].
    + apply (IH _ i); [exact Hi|].
      intros j row' Hlt Hj. apply (Hlast (S j) row'); [lia | exact Hj].
Qed.

Lemma upsert_all_dom rows t :
  dom (upsert_all rows t) = dom t ∪ list_to_set (map ProductDict.key rows).
Proof.
  revert t. induction rows as [|row rows IH]; intros t; cbn.
  - rewrite union_empty_r_L. reflexivity.
  - fold (upsert_all rows (<[ProductDict.key row := row]> t)).
    rewrite IH, dom_insert_L, (union_comm_L {[ProductDict.key row]}).
    rewrite <- union_assoc_L. reflexivity.
Qed.

Lemma rows_from_keys clock start products :
  map ProductDict.key (rows_from clock start products) =
  map natural_key products.
Proof.
  revert start. induction products as [|p products IH]; intros start;
    [reflexivity|].
  rewrite rows_from_cons. cbn [map]. rewrite IH. reflexivity.
Qed.

Lemma rows_from_lookup clock start products i p :
  products !! i = Some p ->
  rows_from clock start products !! i = Some (product_dict p (clock (start + i))).
Proof.
  intros Hi. unfold rows_from. rewrite list_lookup_imap, Hi. reflexivity.
Qed.

(** A run whose writes all commit writes its rows one after the
    other. *)
Lemma committed_fold clock script products results w :
  (forall n, length (calls w) <= n -> script n = Commit) ->
  table (snd (fold_left (import_one (scripted clock script)) products
                (results, w))) =
  upsert_all (rows_from clock (ticks w) products) (table w).
Proof.
  revert results w. induction products as [|p products IH];
    intros results w Hscript; [reflexivity|].
  cbn [fold_left]. rewrite scripted_one, rows_from_cons.
  rewrite (Hscript (length (calls w))) by lia. cbn zeta.
  rewrite IH.
  - reflexivity.
  - intros n Hn. apply Hscript. cbn [calls] in Hn.
    rewrite length_app in Hn. lia.
Qed.

(** A run, whatever the store answers, touches the rows of the keys of
    its products only. *)
Lemma scripted_fold_other clock script products results w k :
  k ∉ map natural_key products ->
  table (snd (fold_left (import_one (scripted clock script)) products
                (results, w))) !! k = table w !! k.
Proof.
  revert results w. induction products as [|p products IH];
    intros results w Hk; [reflexivity|].
  cbn [fold_left]. rewrite scripted_one. cbn [map] in Hk.
  apply not_elem_of_cons in Hk as [Hne Hk].
  destruct (script (length (calls w))); cbn zeta; rewrite IH by exact Hk;
    cbn [table]; [|reflexivity..].
  apply lookup_insert_ne. intros Heq. apply Hne. rewrite <- Heq. reflexivity.
Qed.

Lemma without_time_upsert_all rows t :
  without_time <$> upsert_all rows t =
  upsert_all (map without_time rows) (without_time <$> t).
Proof.
  revert t. induction rows as [|row rows IH]; intros t; [reflexivity|].
  cbn. fold (upsert_all rows (<[ProductDict.key row := row]> t)).
  rewrite IH, fmap_insert. reflexivity.
Qed.

Lemma without_time_rows clock start products :
  map without_time (rows_from clock start products) =
  map (fun p => product_dict p "") products.
Proof.
  revert start. induction products as [|p products IH]; intros start;
    [reflexivity|].
  rewrite rows_from_cons. cbn [map]. rewrite IH. reflexivity.
Qed.

Lemma upsert_all_twice rows t :
  upsert_all rows (upsert_all rows t) = upsert_all rows t.
Proof.
  apply map_eq. intros k.
  destruct (decide (k ∈ map ProductDict.key rows)) as [Hin|Hout].
  - apply upsert_all_written, Hin.
  - apply upsert_all_other, Hout.
Qed.

(** C1. A batch is ingested, the store answering the first run as it
    likes, and ingested again, every write of the second run being
    committed. The table then is the table a single committed run of the
    batch gives at the times of the second run: it has a row for every
    key it had and for every natural key of the batch; the row of a key
    of the batch is, whole, the row the second run built for the last
    product of that key; and when the writes of the first run are
    committed too, the second run changes nothing in the table but the
    times of the writes. *)
Theorem upsert_twice_is_upsert_once (clock : nat -> string)
    (script : nat -> Answer) (products : list ProductData.t) (w : World) :
  let first := snd (import_products (scripted clock script) products w) in
  let second := snd (import_products (reliable clock) products first) in
  let single :=
    snd (import_products (reliable clock) products
           {| table := table w; ticks := ticks first;
              calls := calls first |}) in
  table second = table single
  /\ dom (table second) =
       dom (table w) ∪ list_to_set (map natural_key products)
  /\ (forall i p,
        products !! i = Some p ->
        (forall j q, i < j -> products !! j = Some q ->
           natural_key q <> natural_key p) ->
        table second !! natural_key p =
        Some (product_dict p (clock (ticks first + i))))
  /\ ((forall n, length (calls w) <= n -> script n = Commit) ->
      without_time <$> table second = without_time <$> table first).
Proof.
  intros first second single.
  assert (Hsecond : table second =
            upsert_all (rows_from clock (ticks first) products) (table first)).
  { exact (committed_fold clock (fun _ => Commit) products
             (mkResults 0 0 0) first (fun _ _ => eq_refl)). }
  assert (Hsingle : table single =
            upsert_all (rows_from clock (ticks first) products) (table w)).
  { exact (committed_fold clock (fun _ => Commit) products
             (mkResults 0 0 0)
             {| table := table w; ticks := ticks first;
                calls := calls first |} (fun _ _ => eq_refl)). }
  assert (Hsame : table second = table single).
  { rewrite Hsecond, Hsingle. apply upsert_all_agree. intros k Hk.
    rewrite rows_from_keys in Hk.
    apply (scripted_fold_other clock script products (mkResults 0 0 0) w k Hk). }
  split; [exact Hsame|]. split; [|split].
  - rewrite Hsame, Hsingle, upsert_all_dom, rows_from_keys. reflexivity.
  - intros i p Hi Hlast. rewrite Hsecond.
    apply (upsert_all_last _ _ i (product_dict p (clock (ticks first + i)))).
    + apply rows_from_lookup, Hi.
    + intros j row' Hlt Hj. unfold rows_from in Hj.
      rewrite list_lookup_imap in Hj.
      destruct (products !! j) as [q|] eqn:Hq; [|discriminate Hj].
      injection Hj as <-. apply (Hlast j q Hlt Hq).
  - intros Hscript.
    assert (Hfirst : table first =
              upsert_all (rows_from clock (ticks w) products) (table w)).
    { exact (committed_fold clock script products (mkResults 0 0 0) w
               Hscript). }
    rewrite Hsecond, Hfirst, !without_time_upsert_all, !without_time_rows.
    apply upsert_all_twice.
Qed.

(** Two listings under one address and a third: after a first run that
    the store refuses throughout and a second that it accepts, the table
    has two rows, and the row of the shared address is the one the second
    run built for the later of the two. *)
Lemma upsert_twice_is_upsert_once_witness :
  let p url name :=
    ProductData.make "cos_1" url (JStr "u") name "WOMAN" (Fin 0) "EUR"
      None None None None in
  let batch := [p "a" "Coat"; p "b" "Scarf"; p "a" "Coat, new"] in
  let clock n := pretty n in
  let first :=
    snd (import_products (scripted clock (fun _ => Failure)) batch
           (mkWorld ∅ 0 [])) in
  let second := snd (import_products (reliable clock) batch first) in
  table second !! ("scraper", "a") =
    Some (product_dict (p "a" "Coat, new") "5")
  /\ size (table second) = 2.
Proof.
  intros p batch clock first second.
  destruct (upsert_twice_is_upsert_once clock (fun _ => Failure) batch
              (mkWorld ∅ 0 [])) as (_ & _ & Hlast & _).
  split.
  - apply (Hlast 2 (p "a" "Coat, new") eq_refl).
    intros [|[|[|j]]] q Hlt Hq; try lia. discriminate Hq.
  - vm_compute. reflexivity.
Defined.

(** * Further properties of the normaliser *)

Section ProductTrace.
Context `{PyRuntime} (self : COSDataProcessor).
Variables (product_json : dict) (p : ProductData.t).
Hypothesis Hp : process_product self product_json = Some p.

(** Where the image and the category of a product come from. *)
Lemma image_and_category_of_product :
  exists primary_src has_slash,
    py_get (dict_get product_json "primaryImage" (JObj [])) "src" (JStr "")
      = Ret primary_src /\
    (if truthy primary_src then Ret primary_src
     else
       let images := dict_get product_json "images" (JArr []) in
       if truthy images then
         first ← py_index0 images; py_get first "src" (JStr "")
       else Ret primary_src) = Ret (ProductData.image_url p) /\
    truthy (ProductData.image_url p) = true /\
    py_in "/" (dict_get product_json "categoryUri" (JStr "")) = Ret has_slash /\
    (if has_slash then
       path ← as_str (dict_get product_json "categoryUri" (JStr ""));
       Ret (Some (title_case (replace "-" " " (last_segment "/" path))))
     else Ret None) = Ret (ProductData.category p) /\
    ProductData.embedding p =
      generate_embedding (embedding_generator self) (ProductData.image_url p)
    /\
    ProductData.product_url p =
      (let uri := dict_get product_json "uri" (JStr "") in
       if truthy uri then "https://www.cos.com/en-eu/" +:+ py_str uri else "").
Proof.
  revert Hp. unfold process_product. intros Hsome.
  destruct (process_product_try self product_json) as [r|] eqn:Ht;
    [subst r | discriminate Hsome].
  unfold process_product_try in Ht.
  destruct (truthy (dict_get product_json "id" (JStr ""))) eqn:Hid;
    simpl negb in Ht; cbv iota in Ht; [|discriminate Ht].
  bind_inv Ht primary_src Hprimary.
  bind_inv Ht image_url Himage.
  destruct (truthy image_url) eqn:Himg;
    simpl negb in Ht; cbv iota in Ht; [|discriminate Ht].
  bind_inv Ht name Hname.
  destruct (String.eqb (strip name) "") eqn:Htitle; [discriminate Ht|].
  bind_inv Ht cats Hcats.
  bind_inv Ht is_men Hmen.
  bind_inv Ht price_str Hprice.
  bind_inv Ht has_slash Hslash.
  bind_inv Ht category Hcategory.
  bind_inv Ht images Himages.
  bind_inv Ht srcs Hsrcs.
  bind_inv Ht tags Htags.
  injection Ht as <-.
  exists primary_src, has_slash. cbn [ProductData.image_url
    ProductData.category ProductData.embedding ProductData.product_url
    ProductData.make].
  repeat split; try assumption.
  destruct (truthy primary_src); exact Himage.
Qed.
End ProductTrace.

(** ** The image *)

(** X1. The image of a product is the [src] of the listing's primary
    image when that is a true value; otherwise the listing has a list of
    images that starts with a dict, and the image is the [src] of that
    first image. Either way it is a true value, and the embedding of the
    product is the generator's answer for that very image. *)
Theorem image_is_primary_or_first `{PyRuntime} (self : COSDataProcessor)
    (product_json : dict) (p : ProductData.t) :
  process_product self product_json = Some p ->
  exists primary,
    dict_get product_json "primaryImage" (JObj []) = JObj primary /\
    truthy (ProductData.image_url p) = true /\
    ProductData.embedding p =
      generate_embedding (embedding_generator self) (ProductData.image_url p)
    /\
    (truthy (dict_get primary "src" (JStr "")) = true ->
     ProductData.image_url p = dict_get primary "src" (JStr "")) /\
    (truthy (dict_get primary "src" (JStr "")) = false ->
     exists first rest,
       dict_get product_json "images" (JArr []) = JArr (JObj first :: rest) /\
       ProductData.image_url p = dict_get first "src" (JStr "")).
Proof.
  intros Hp.
  destruct (image_and_category_of_product self _ _ Hp)
    as (primary_src & has_slash & Hprimary & Himage & Htrue & _ & _
        & Hembedding & _).
  destruct (dict_get product_json "primaryImage" (JObj []))
    as [| | | | | |primary]; try discriminate Hprimary.
  injection Hprimary as <-. exists primary.
  split; [reflexivity|]. split; [exact Htrue|]. split; [exact Hembedding|].
  split; intros Hsrc; rewrite Hsrc in Himage.
  - injection Himage as <-. reflexivity.
  - cbv zeta in Himage.
    destruct (dict_get product_json "images" (JArr [])) as [| | | |t|items|];
      cbn [truthy] in Himage.
    + injection Himage as Heq. rewrite <- Heq, Hsrc in Htrue. discriminate.
    + destruct b; [discriminate Himage|]. injection Himage as Heq.
      rewrite <- Heq, Hsrc in Htrue. discriminate.
    + destruct (negb (n =? 0)%Z); [discriminate Himage|].
      injection Himage as Heq. rewrite <- Heq, Hsrc in Htrue. discriminate.
    + destruct (negb (Qeq_bool q 0)); [discriminate Himage|].
      injection Himage as Heq. rewrite <- Heq, Hsrc in Htrue. discriminate.
    + destruct t as [|c t]; cbn in Himage; [|discriminate Himage].
      injection Himage as Heq. rewrite <- Heq, Hsrc in Htrue. discriminate.
    + destruct items as [|first rest].
      * injection Himage as Heq. rewrite <- Heq, Hsrc in Htrue. discriminate.
      * cbn [py_index0] in Himage.
        change (py_get first "src" (JStr "") = Ret (ProductData.image_url p))
          in Himage.
        destruct first as [| | | | | |fields]; try discriminate Himage.
        injection Himage as <-. exists fields, rest. split; reflexivity.
    + destruct fields; [|discriminate Himage].
      injection Himage as Heq. rewrite <- Heq, Hsrc in Htrue. discriminate.
Qed.

Lemma image_is_primary_or_first_witness :
  exists p,
    @process_product stub_runtime {| embedding_generator := constant_generator |}
      [ ("id", JStr "0652371001");
        ("name", JStr "Wool Coat");
        ("images", JArr [JObj [("src", JStr "https://media.cos.com/a.jpg")];
                         JObj [("src", JStr "https://media.cos.com/b.jpg")]]) ]
    = Some p /\
    ProductData.image_url p = JStr "https://media.cos.com/a.jpg" /\
    ProductData.embedding p = Some [1 # 2; 1 # 4]%Q.
Proof.
  eexists. split; [vm_compute; reflexivity|].
  destruct (@image_is_primary_or_first stub_runtime
              {| embedding_generator := constant_generator |}
              [ ("id", JStr "0652371001");
                ("name", JStr "Wool Coat");
                ("images",
                 JArr [JObj [("src", JStr "https://media.cos.com/a.jpg")];
                       JObj [("src", JStr "https://media.cos.com/b.jpg")]]) ]
              _ ltac:(vm_compute; reflexivity))
    as (primary & Hprimary & _ & Hembedding & _ & Hfallback).
  injection Hprimary as <-.
  destruct (Hfallback eq_refl) as (first & rest & Himages & Himage).
  injection Himages as <- <-.
  split; [exact Himage | exact Hembedding].
Defined.

(** X2. A listing is dropped, whatever else it holds, when its [id] is
    missing or a false value ([""], [0], [null]); when its primary image
    has no true [src] and it has no images to fall back on; and when its
    [name] is missing, not a text, or blank. *)
Theorem listing_without_required_field_is_dropped `{PyRuntime}
    (self : COSDataProcessor) (product_json : dict) :
  truthy (dict_get product_json "id" (JStr "")) = false
  \/ (truthy (dict_get product_json "images" (JArr [])) = false /\
      forall primary,
        dict_get product_json "primaryImage" (JObj []) = JObj primary ->
        truthy (dict_get primary "src" (JStr "")) = false)
  \/ (forall name,
        dict_get product_json "name" (JStr "") = JStr name ->
        strip name = "") ->
  process_product self product_json = None.
Proof.
  intros Hmissing.
  destruct (process_product self product_json) as [p|] eqn:Hp; [|reflexivity].
  exfalso. destruct Hmissing as [Hid | [[Himages Hsrc] | Hname]].
  - destruct (process_product_Some self _ _ Hp)
      as (? & ? & ? & ? & ? & ? & ? & ? & Htrue & _).
    rewrite Hid in Htrue. discriminate Htrue.
  - destruct (image_and_category_of_product self _ _ Hp)
      as (primary_src & ? & Hprimary & Himage & Htrue & _).
    destruct (dict_get product_json "primaryImage" (JObj []))
      as [| | | | | |primary] eqn:Hdict; try discriminate Hprimary.
    injection Hprimary as <-.
    rewrite (Hsrc primary eq_refl) in Himage. cbv zeta in Himage.
    rewrite Himages in Himage. injection Himage as Heq.
    rewrite <- Heq, (Hsrc primary eq_refl) in Htrue. discriminate Htrue.
  - destruct (process_product_Some self _ _ Hp)
      as (? & name & ? & ? & ? & ? & ? & ? & _ & _ & Hstr & Hblank & _).
    destruct (dict_get product_json "name" (JStr "")) as [| | | |text| |];
      try discriminate Hstr.
    injection Hstr as <-. apply Hblank, Hname. reflexivity.
Qed.

Lemma listing_without_required_field_is_dropped_witness :
  @process_product stub_runtime {| embedding_generator := constant_generator |}
    (listing "0652371001" ["Knitwear"] [("name", JStr "   ")]) = None.
Proof.
  apply (@listing_without_required_field_is_dropped stub_runtime).
  right. right. intros name Hname. vm_compute in Hname.
  injection Hname as <-. reflexivity.
Defined.

(** ** The title *)

Lemma rstrip_String (c : ascii) (s : string) :
  rstrip (String c s) =
  match rstrip s with
  | "" => if is_space c then "" else String c ""
  | kept => String c kept
  end%string.
Proof. reflexivity. Qed.







(** ** The fields every product shares *)

(** X4. Every product has gender MAN or WOMAN, currency EUR, source
    "scraper", brand COS and country EU, is not second hand, carries a
    metadata text, and has no affiliate link, description, size or
    compressed image. *)
Theorem product_constant_fields `{PyRuntime} (self : COSDataProcessor)
    (product_json : dict) (p : ProductData.t) :
  process_product self product_json = Some p ->
  (ProductData.gender p = "MAN" \/ ProductData.gender p = "WOMAN")
  /\ ProductData.currency p = "EUR"
  /\ ProductData.source p = "scraper"
  /\ ProductData.brand p = "COS"
  /\ ProductData.country p = "EU"
  /\ ProductData.second_hand p = false
  /\ is_Some (ProductData.metadata p)
  /\ ProductData.affiliate_url p = None
  /\ ProductData.description p = None
  /\ ProductData.size p = None
  /\ ProductData.compressed_image_url p = None.
Proof.
  intros Hp.
  destruct (process_product_Some self _ _ Hp)
    as (image_url & name & cats & is_men & price_str & category & srcs
        & tags & _ & _ & _ & _ & _ & _ & _ & _ & ->).
  cbn. split; [destruct is_men; auto|].
  repeat split. eexists. reflexivity.
Qed.

Lemma product_constant_fields_witness :
  exists p,
    @process_product stub_runtime {| embedding_generator := failing_generator |}
      (listing "0652371001" ["Knitwear"] []) = Some p /\
    ProductData.currency p = "EUR" /\ ProductData.brand p = "COS".
Proof.
  eexists. split; [vm_compute; reflexivity|].
  destruct (@product_constant_fields stub_runtime
              {| embedding_generator := failing_generator |}
              (listing "0652371001" ["Knitwear"] []) _
              ltac:(vm_compute; reflexivity))
    as (_ & Hcurrency & _ & Hbrand & _).
  split; [exact Hcurrency | exact Hbrand].
Defined.

(** ** Listings of the expected shape *)




(** ** The link and the natural key *)

Lemma app_inv_head_string (s a b : string) : s +:+ a = s +:+ b -> a = b.
Proof.
  induction s as [|c s IH]; rewrite ?app_empty, ?app_String;
    [exact id | intros [= Heq]; exact (IH Heq)].
Qed.

(** X6. The link of a product is the address of the shop followed by the
    listing's [uri], and empty when the listing has none; so two products
    of listings with text [uri]s have the same natural key exactly when
    the [uri]s are the same text. *)
Theorem natural_key_follows_uri `{PyRuntime} (self : COSDataProcessor)
    (listing1 listing2 : dict) (p1 p2 : ProductData.t) (uri1 uri2 : string) :
  process_product self listing1 = Some p1 ->
  process_product self listing2 = Some p2 ->
  dict_get listing1 "uri" (JStr "") = JStr uri1 ->
  dict_get listing2 "uri" (JStr "") = JStr uri2 ->
  ProductData.product_url p1 =
    (if String.eqb uri1 "" then ""
     else "https://www.cos.com/en-eu/" +:+ uri1)
  /\ (natural_key p1 = natural_key p2 <-> uri1 = uri2).
Proof.
  intros Hp1 Hp2 Huri1 Huri2.
  destruct (image_and_category_of_product self _ _ Hp1)
    as (? & ? & _ & _ & _ & _ & _ & _ & Hurl1).
  destruct (image_and_category_of_product self _ _ Hp2)
    as (? & ? & _ & _ & _ & _ & _ & _ & Hurl2).
  assert (Hs1 : ProductData.source p1 = "scraper").
  { destruct (process_product_Some self _ _ Hp1)
      as (? & ? & ? & ? & ? & ? & ? & ? & _ & _ & _ & _ & _ & _ & _ & _ & ->).
    reflexivity. }
  assert (Hs2 : ProductData.source p2 = "scraper").
  { destruct (process_product_Some self _ _ Hp2)
      as (? & ? & ? & ? & ? & ? & ? & ? & _ & _ & _ & _ & _ & _ & _ & _ & ->).
    reflexivity. }
  rewrite Huri1 in Hurl1. rewrite Huri2 in Hurl2.
  cbn [truthy] in Hurl1, Hurl2. unfold natural_key.
  rewrite Hs1, Hs2, Hurl1, Hurl2.
  split; [destruct (String.eqb uri1 ""); reflexivity|].
  destruct (String.eqb_spec uri1 "") as [->|Hne1],
           (String.eqb_spec uri2 "") as [->|Hne2]; cbn [negb].
  - split; reflexivity.
  - split; [intros [= Heq]; discriminate Heq | intros <-; contradiction].
  - split; [intros [= Heq]; discriminate Heq | intros ->; contradiction].
  - split; [intros [= Heq]; exact (app_inv_head_string _ _ _ Heq)
           | intros ->; reflexivity].
Qed.

Lemma natural_key_follows_uri_witness :
  exists p1 p2,
    @process_product stub_runtime {| embedding_generator := failing_generator |}
      (listing "1" ["Knitwear"] [("uri", JStr "")]) = Some p1 /\
    @process_product stub_runtime {| embedding_generator := failing_generator |}
      (listing "2" ["Coats"] [("uri", JStr "")]) = Some p2 /\
    natural_key p1 = natural_key p2.
Proof.
  eexists _, _. split; [vm_compute; reflexivity|].
  split; [vm_compute; reflexivity|].
  apply (@natural_key_follows_uri stub_runtime
           {| embedding_generator := failing_generator |}
           (listing "1" ["Knitwear"] [("uri", JStr "")])
           (listing "2" ["Coats"] [("uri", JStr "")]) _ _ "" ""
           ltac:(vm_compute; reflexivity) ltac:(vm_compute; reflexivity)
           eq_refl eq_refl).
  reflexivity.
Defined.

(** ** Gender and tags do not depend on the case of the labels *)

(** X7. Two listings whose category labels are the same up to the case
    of their letters give products of the same gender and the same
    tags. *)
Theorem gender_and_tags_ignore_case `{PyRuntime} (self : COSDataProcessor)
    (listing1 listing2 : dict) (p1 p2 : ProductData.t)
    (labels1 labels2 : list string) :
  process_product self listing1 = Some p1 ->
  process_product self listing2 = Some p2 ->
  dict_get listing1 "categories" (JArr []) = JArr (map JStr labels1) ->
  dict_get listing2 "categories" (JArr []) = JArr (map JStr labels2) ->
  map lower labels1 = map lower labels2 ->
  ProductData.gender p1 = ProductData.gender p2
  /\ ProductData.tags p1 = ProductData.tags p2.
Proof.
  intros Hp1 Hp2 Hcats1 Hcats2 Hlower.
  destruct (gender_and_tags self _ _ Hp1) as (l1 & Hiter1 & -> & ->).
  destruct (gender_and_tags self _ _ Hp2) as (l2 & Hiter2 & -> & ->).
  rewrite Hcats1 in Hiter1. rewrite Hcats2 in Hiter2.
  cbn [py_iter] in Hiter1, Hiter2.
  injection Hiter1 as Heq1. injection Hiter2 as Heq2.
  assert (Hinj : forall a b : list string, map JStr a = map JStr b -> a = b).
  { induction a as [|x a IH]; intros [|y b] Hab; try discriminate Hab;
      [reflexivity|]. injection Hab as -> Hab. f_equal. exact (IH b Hab). }
  apply Hinj in Heq1, Heq2. subst l1 l2.
  assert (Hmen : existsb (fun label => contains "men" (lower label)) labels1 =
                 existsb (fun label => contains "men" (lower label)) labels2).
  { clear -Hlower. revert labels2 Hlower.
    induction labels1 as [|a l1 IH]; intros [|b l2] Hl; try discriminate Hl;
      [reflexivity|].
    injection Hl as Hab Hl. cbn [existsb]. rewrite Hab, (IH l2 Hl).
    reflexivity. }
  assert (Htags : omap first_fabric labels1 = omap first_fabric labels2).
  { clear -Hlower. revert labels2 Hlower.
    induction labels1 as [|a l1 IH]; intros [|b l2] Hl; try discriminate Hl;
      [reflexivity|].
    injection Hl as Hab Hl.
    change (match first_fabric a with
            | Some t => t :: omap first_fabric l1
            | None => omap first_fabric l1
            end =
            match first_fabric b with
            | Some t => t :: omap first_fabric l2
            | None => omap first_fabric l2
            end).
    rewrite (IH l2 Hl). unfold first_fabric. rewrite Hab. reflexivity. }
  rewrite Hmen, Htags. split; reflexivity.
Qed.

Lemma gender_and_tags_ignore_case_witness :
  exists p1 p2,
    @process_product stub_runtime {| embedding_generator := failing_generator |}
      (listing "1" ["MEN'S WOOL"] []) = Some p1 /\
    @process_product stub_runtime {| embedding_generator := failing_generator |}
      (listing "1" ["Men's Wool"] []) = Some p2 /\
    ProductData.gender p1 = ProductData.gender p2 /\
    ProductData.tags p1 = ProductData.tags p2.
Proof.
  eexists _, _. split; [vm_compute; reflexivity|].
  split; [vm_compute; reflexivity|].
  apply (@gender_and_tags_ignore_case stub_runtime
           {| embedding_generator := failing_generator |}
           (listing "1" ["MEN'S WOOL"] []) (listing "1" ["Men's Wool"] [])
           _ _ ["MEN'S WOOL"] ["Men's Wool"]
           ltac:(vm_compute; reflexivity) ltac:(vm_compute; reflexivity)
           eq_refl eq_refl eq_refl).
Defined.

(** ** The category *)



Lemma replace_char_String (a b d : ascii) (s : string) :
  replace (String a "") (String b "") (String d s) =
  String (if Ascii.eqb d a then b else d)
         (replace (String a "") (String b "") s).
Proof.
  unfold replace. cbn [replace_from String.prefix String.length Nat.sub].
  destruct (ascii_dec a d) as [->|Hne].
  - rewrite Ascii.eqb_refl. destruct s; reflexivity.
  - destruct (Ascii.eqb_spec d a); [congruence | reflexivity].
Qed.








(** ** Prices with more than one separator *)

Lemma occurrences_app (c : ascii) (a b : string) :
  occurrences c (a +:+ b) = occurrences c a + occurrences c b.
Proof.
  induction a as [|d a IH]; rewrite ?app_empty, ?app_String;
    cbn [occurrences]; [reflexivity | rewrite IH; lia].
Qed.

Lemma replace_euro_occurrences (c : ascii) (s : string) :
  occurrences c "€" = 0 ->
  occurrences c (replace "€" "" s) = occurrences c s.
Proof.
  intros Hc. unfold replace.
  assert (Hall : forall n s, String.length s <= n ->
            occurrences c (replace_from "€" "" 0 s) = occurrences c s).
  { clear s. induction n as [|n IH]; intros s Hlen.
    - destruct s; [reflexivity | cbn in Hlen; lia].
    - destruct s as [|d rest]; [reflexivity|].
      cbn [replace_from].
      destruct (String.prefix "€" (String d rest)) eqn:Hprefix.
      + apply prefix_split in Hprefix as [t Ht].
        injection Ht as -> ->.
        rewrite !app_String, !app_empty in Hlen |- *.
        cbn [replace_from String.length Nat.sub].
        assert (Ht : String.length t <= n) by (simpl in Hlen; lia).
        rewrite !app_empty, (IH t Ht).
        change (String "226" (String "130" (String "172" t)))
          with ("€" +:+ t).
        rewrite occurrences_app, Hc. reflexivity.
      + cbn [occurrences]. rewrite IH by (cbn in Hlen; lia). reflexivity. }
  apply (Hall (String.length s)). lia.
Qed.

Lemma replace_comma_points (s : string) :
  occurrences "." (replace "," "." s) =
  occurrences "." s + occurrences "," s.
Proof.
  induction s as [|d s IH]; [reflexivity|].
  rewrite replace_char_String.
  destruct (Ascii.eqb_spec d ",") as [->|Hd]; cbn [occurrences]; rewrite IH.
  - change (Ascii.eqb "." ".") with true.
    change (Ascii.eqb "," ".") with false.
    change (Ascii.eqb "," ",") with true. cbv iota. lia.
  - destruct (Ascii.eqb_spec d ","); [contradiction|].
    destruct (Ascii.eqb d "."); cbv iota; lia.
Qed.

Lemma lstrip_occurrences (c : ascii) (s : string) :
  is_space c = false -> occurrences c (lstrip s) = occurrences c s.
Proof.
  intros Hc. induction s as [|d s IH]; [reflexivity|].
  cbn [lstrip]. destruct (is_space d) eqn:Hd; [|reflexivity].
  cbn [occurrences]. rewrite IH.
  destruct (Ascii.eqb_spec d c); [congruence | reflexivity].
Qed.

Lemma rstrip_occurrences (c : ascii) (s : string) :
  is_space c = false -> occurrences c (rstrip s) = occurrences c s.
Proof.
  intros Hc. induction s as [|d s IH]; [reflexivity|].
  rewrite rstrip_String. cbn [occurrences]. rewrite <- IH.
  destruct (rstrip s) as [|e kept]; [|reflexivity].
  destruct (is_space d) eqn:Hd; cbn [occurrences]; [|lia].
  destruct (Ascii.eqb_spec d c); [congruence | reflexivity].
Qed.

Lemma strip_occurrences (c : ascii) (s : string) :
  is_space c = false -> occurrences c (strip s) = occurrences c s.
Proof.
  intros Hc. unfold strip.
  rewrite rstrip_occurrences, lstrip_occurrences by exact Hc. reflexivity.
Qed.

Lemma digit_is_no_point (c : ascii) (d : Z) :
  digit_of c = Some d -> Ascii.eqb c "." = false.
Proof.
  intros Hd. destruct (Ascii.eqb_spec c ".") as [->|]; [|reflexivity].
  discriminate Hd.
Qed.

Lemma digits_more_points (s : string) :
  forall value count value' count' rest,
    digits_more value count s = (value', count', rest) ->
    occurrences "." s = occurrences "." rest.
Proof.
  assert (Hall : forall n s, String.length s <= n ->
            forall value count value' count' rest,
              digits_more value count s = (value', count', rest) ->
              occurrences "." s = occurrences "." rest).
  { clear s. induction n as [|n IH]; intros s Hlen value count value' count' rest.
    - destruct s; [|cbn in Hlen; lia]. intros [= _ _ <-]. reflexivity.
    - destruct s as [|c s]; [intros [= _ _ <-]; reflexivity|].
      cbn [digits_more]. destruct (digit_of c) as [d|] eqn:Hd.
      + intros Hmore. cbn [occurrences]. rewrite (digit_is_no_point _ _ Hd).
        apply (IH s) in Hmore; [exact Hmore | cbn in Hlen; lia].
      + destruct (Ascii.eqb_spec c "_") as [->|Hc];
          [|intros [= _ _ <-]; reflexivity].
        destruct s as [|c' s']; [intros [= _ _ <-]; reflexivity|].
        destruct (digit_of c') as [d'|] eqn:Hd';
          [|intros [= _ _ <-]; reflexivity].
        intros Hmore. cbn [occurrences]. rewrite (digit_is_no_point _ _ Hd').
        apply (IH s') in Hmore; [|cbn in Hlen; lia].
        rewrite Hmore. reflexivity. }
  apply (Hall (String.length s)). lia.
Qed.

Lemma digitpart_points (s : string) (value : Z) (count : nat) (rest : string) :
  digitpart s = Some (value, count, rest) ->
  occurrences "." s = occurrences "." rest.
Proof.
  destruct s as [|c s]; [discriminate|]. cbn [digitpart].
  destruct (digit_of c) as [d|] eqn:Hd; [|discriminate].
  intros [= Hmore]. cbn [occurrences]. rewrite (digit_is_no_point _ _ Hd).
  apply (digits_more_points _ _ _ _ _ _ Hmore).
Qed.

Lemma sign_of_points (s : string) :
  occurrences "." (snd (sign_of s)) = occurrences "." s.
Proof.
  destruct s as [|c s]; [reflexivity|].
  destruct c as [[] [] [] [] [] [] [] []]; reflexivity.
Qed.

Lemma exponent_points (s : string) (e : Z) :
  exponent s = Some e -> occurrences "." s = 0.
Proof.
  destruct s as [|c s]; [reflexivity|]. cbn [exponent].
  destruct (Ascii.eqb_spec (lower_ascii c) "e") as [Hc|]; [|discriminate].
  destruct (sign_of s) as [neg body] eqn:Hsign.
  destruct (digitpart body) as [[[value count] rest]|] eqn:Hdigits;
    [|discriminate].
  destruct rest; [|discriminate]. intros _.
  assert (Hbody : occurrences "." body = occurrences "." s)
    by (rewrite <- (sign_of_points s), Hsign; reflexivity).
  rewrite (digitpart_points _ _ _ _ Hdigits) in Hbody.
  cbn [occurrences]. rewrite <- Hbody.
  destruct (Ascii.eqb_spec c ".") as [->|]; [discriminate Hc | reflexivity].
Qed.

Lemma number_points (s : string) (m : Z) (k : nat) (rest : string) :
  number s = Some (m, k, rest) ->
  occurrences "." s <= 1 + occurrences "." rest.
Proof.
  unfold number. destruct s as [|c s]; [discriminate|].
  destruct (Ascii.eqb_spec c ".") as [->|Hc].
  - destruct (digitpart s) as [[[f j] rest']|] eqn:Hfrac; [|discriminate].
    intros [= _ _ <-]. cbn [occurrences].
    rewrite (digitpart_points _ _ _ _ Hfrac). cbn. lia.
  - assert (Hbody :
      match digitpart (String c s) with
      | Some (i, _, String "." rest0) =>
          match rest0 with
          | String c0 rest1 =>
              match digit_of c0 with
              | Some d =>
                  let '(v, k0, rest') := digits_more (10 * i + d) 1 rest1 in
                  Some (v, k0, rest')
              | None => Some (i, 0%nat, rest0)
              end
          | "" => Some (i, 0%nat, "")
          end
      | Some (i, _, rest0) => Some (i, 0%nat, rest0)
      | None => None
      end = Some (m, k, rest) ->
      occurrences "." (String c s) <= 1 + occurrences "." rest).
    { destruct (digitpart (String c s)) as [[[i j] after]|] eqn:Hint;
        [|discriminate].
      rewrite (digitpart_points _ _ _ _ Hint).
      destruct after as [|a after]; [intros [= _ _ <-]; cbn; lia|].
      destruct (Ascii.eqb_spec a ".") as [->|Ha].
      - destruct after as [|c0 rest1]; [intros [= _ _ <-]; cbn; lia|].
        destruct (digit_of c0) as [d|] eqn:Hd.
        + destruct (digits_more (10 * i + d) 1 rest1) as [[v k0] rest'] eqn:Hm.
          intros [= _ _ <-]. cbn [occurrences].
          rewrite (digit_is_no_point _ _ Hd).
          rewrite (digits_more_points _ _ _ _ _ _ Hm). cbn. lia.
        + intros [= _ _ <-]. cbn. lia.
      - assert (Hsame : forall X : option (Z * nat * string),
                  match a with
                  | "."%char => X
                  | _ => Some (i, 0%nat, String a after)
                  end = Some (i, 0%nat, String a after)).
        { intros X. destruct a as [[] [] [] [] [] [] [] []];
            try reflexivity. contradiction Ha. reflexivity. }
        rewrite Hsame. intros [= _ _ <-]. lia. }
    destruct c as [[] [] [] [] [] [] [] []]; try exact Hbody.
    contradiction Hc. reflexivity.
Qed.

Lemma case_keeps_point (d : ascii) :
  Ascii.eqb (lower_ascii d) "." = Ascii.eqb d ".".
Proof. destruct d as [[] [] [] [] [] [] [] []]; reflexivity. Qed.

Lemma lower_points (s : string) :
  occurrences "." (lower s) = occurrences "." s.
Proof.
  induction s as [|d s IH]; [reflexivity|].
  cbn [lower occurrences]. rewrite IH, case_keeps_point. reflexivity.
Qed.

(** [float] accepts no text with two points. *)
Lemma py_float_points (s : string) (f : PyFloat) :
  py_float s = Some f -> occurrences "." s <= 1.
Proof.
  unfold py_float.
  assert (Hbody : occurrences "." (snd (sign_of (strip s))) = occurrences "." s)
    by (rewrite sign_of_points; apply strip_occurrences; reflexivity).
  destruct (sign_of (strip s)) as [neg body]. cbn [snd] in Hbody.
  rewrite <- Hbody, <- (lower_points body).
  destruct (String.eqb_spec (lower body) "inf") as [->|_]; [cbn; lia|].
  destruct (String.eqb_spec (lower body) "infinity") as [->|_]; [cbn; lia|].
  cbn [orb].
  destruct (String.eqb_spec (lower body) "nan") as [->|_]; [cbn; lia|].
  destruct (number body) as [[[m k] rest]|] eqn:Hnumber; [|discriminate].
  destruct (exponent rest) as [e|] eqn:Hexponent; [|discriminate].
  intros _. rewrite lower_points.
  pose proof (number_points _ _ _ _ Hnumber) as Hle.
  rewrite (exponent_points _ _ Hexponent) in Hle. lia.
Qed.

(** X9. A price text with two or more separators, points and commas
    taken together, gives the price [0.0]: so does a price written with a
    separator of thousands, "€1.299,00" for one. *)
Theorem price_with_two_separators_is_zero `{PyRuntime}
    (self : COSDataProcessor) (product_json : dict) (p : ProductData.t)
    (text : string) :
  process_product self product_json = Some p ->
  dict_get product_json "price" (JStr "") = JStr text ->
  2 <= occurrences "." text + occurrences "," text ->
  ProductData.price p = Fin 0.
Proof.
  intros Hp Htext Htwo.
  destruct (price_of_product self _ _ Hp) as (text' & Htext' & _ & Hzero).
  rewrite Htext in Htext'. injection Htext' as <-.
  apply Hzero.
  destruct (py_float (strip (replace "," "." (replace "€" "" text))))
    as [f|] eqn:Hf; [|reflexivity].
  exfalso. apply py_float_points in Hf.
  rewrite strip_occurrences, replace_comma_points in Hf by reflexivity.
  rewrite !replace_euro_occurrences in Hf by reflexivity. lia.
Qed.

Lemma price_with_two_separators_is_zero_witness :
  ProductData.price <$>
    @process_product stub_runtime {| embedding_generator := failing_generator |}
      (listing "0652371001" ["Coats"] [("price", JStr "€1.299,00")])
  = Some (Fin 0).
Proof.
  destruct (@process_product stub_runtime
              {| embedding_generator := failing_generator |}
              (listing "0652371001" ["Coats"] [("price", JStr "€1.299,00")]))
    as [p|] eqn:Hp; [|vm_compute in Hp; discriminate Hp].
  cbn. f_equal.
  apply (@price_with_two_separators_is_zero stub_runtime _ _ p "€1.299,00" Hp);
    [reflexivity | cbn; lia].
Defined.

Lemma price_of_product_witness :
  exists p,
    @process_product stub_runtime {| embedding_generator := failing_generator |}
      (listing "0652371001" ["Coats"] [("price", JStr " 199.50 ")]) = Some p /\
    ProductData.price p = Fin (399 # 2).
Proof.
  eexists. split; [vm_compute; reflexivity|].
  destruct (@price_of_product stub_runtime
              {| embedding_generator := failing_generator |}
              (listing "0652371001" ["Coats"] [("price", JStr " 199.50 ")]) _
              ltac:(vm_compute; reflexivity)) as (text & Htext & Hprice & _).
  vm_compute in Htext. injection Htext as <-. exact Hprice.
Defined.

Lemma price_text_never_rejects_witness :
  is_Some
    (@process_product stub_runtime {| embedding_generator := failing_generator |}
       (("price", JStr "on request") :: listing "0652371001" ["Coats"] [])).
Proof.
  apply (@price_text_never_rejects stub_runtime
           {| embedding_generator := failing_generator |}
           (listing "0652371001" ["Coats"] [])
           (("price", JStr "on request")
              :: listing "0652371001" ["Coats"] []) "" "on request").
  - intros key default Hkey. cbn [dict_get].
    destruct (String.eqb_spec "price" key) as [<-|_]; [contradiction|].
    reflexivity.
  - reflexivity.
  - reflexivity.
  - vm_compute. eexists. reflexivity.
Defined.

(** * Further properties of a batch *)

Lemma process_items_dicts `{PyRuntime} (self : COSDataProcessor)
    (listings : list dict) :
  process_items self (map JObj listings) =
  Ret (omap (process_product self) listings).
Proof.
  induction listings as [|l listings IH]; [reflexivity|].
  cbn [map process_items process_item]. exc_simpl. rewrite IH. exc_simpl.
  reflexivity.
Qed.

Lemma process_items_not_dict `{PyRuntime} (self : COSDataProcessor)
    (items : list json) (item : json) :
  item ∈ items -> (forall fields, item <> JObj fields) ->
  process_items self items = Raise.
Proof.
  intros Hin Hitem. induction Hin as [item items | item other items Hin IH].
  - cbn [process_items]. destruct item; try reflexivity.
    exfalso. exact (Hitem _ eq_refl).
  - cbn [process_items]. destruct (process_item self other); [|reflexivity].
    exc_simpl. rewrite (IH Hitem). reflexivity.
Qed.

Lemma length_omap_le {A B} (f : A -> option B) (l : list A) :
  length (omap f l) <= length l.
Proof.
  induction l as [|a l IH]; [reflexivity|].
  change (length match f a with
                 | Some b => b :: omap f l
                 | None => omap f l
                 end <= S (length l)).
  destruct (f a); cbn [length]; lia.
Qed.

Lemma response_of_dicts `{PyRuntime} (self : COSDataProcessor)
    (fields : dict) (listings : list dict) :
  dict_get fields "items" (JArr []) = JArr (map JObj listings) ->
  process_json_response self (JObj fields) =
  Ret (omap (process_product self) listings).
Proof.
  intros Hitems. unfold process_json_response. cbn [py_get]. exc_simpl.
  rewrite Hitems. cbn [py_iter]. exc_simpl. apply process_items_dicts.
Qed.

(** X11. A document whose [items] is a list of dicts gives the products
    of the listings that normalise, in the order of the listings, the
    others left out; so never more products than listings, and none for
    a document without [items]. *)
Theorem response_products_in_listing_order `{PyRuntime}
    (self : COSDataProcessor) (fields : dict) (listings : list dict) :
  dict_get fields "items" (JArr []) = JArr (map JObj listings) ->
  process_json_response self (JObj fields) =
    Ret (omap (process_product self) listings)
  /\ length (omap (process_product self) listings) <= length listings.
Proof.
  intros Hitems. split; [apply response_of_dicts, Hitems|].
  apply length_omap_le.
Qed.

Lemma response_products_in_listing_order_witness :
  map ProductData.id <$>
    @process_json_response stub_runtime
      {| embedding_generator := failing_generator |}
      (JObj [("items",
              JArr [JObj (listing "1" ["Knitwear"] []);
                    JObj (listing "" ["Knitwear"] []);
                    JObj (listing "3" ["Knitwear"] [])])])
  = Ret ["cos_1"; "cos_3"].
Proof.
  destruct (@response_products_in_listing_order stub_runtime
              {| embedding_generator := failing_generator |}
              [("items",
                JArr [JObj (listing "1" ["Knitwear"] []);
                      JObj (listing "" ["Knitwear"] []);
                      JObj (listing "3" ["Knitwear"] [])])]
              [listing "1" ["Knitwear"] []; listing "" ["Knitwear"] [];
               listing "3" ["Knitwear"] []] eq_refl) as [-> _].
  vm_compute. reflexivity.
Defined.

(** X12. One element of [items] that is not a dict ends the processing
    of the whole document with an exception, whatever the other elements
    are: the two [scrape_from_json_*] methods raise and import nothing,
    and [scrape_from_api] answers with one error and leaves the store
    as it was. *)
Theorem item_that_is_no_dict_aborts_the_source `{PyRuntime} {W : Type}
    (self : COSScraper W) (source : string) (fields : dict)
    (items : list json) (item : json) (limit : option Z) (w : W)
    (session_get : string -> exc json) :
  dict_get fields "items" (JArr []) = JArr items ->
  item ∈ items ->
  (forall d, item <> JObj d) ->
  process_json_response (processor self) (JObj fields) = Raise
  /\ (load_json_from_file self source = Ret (JObj fields) ->
      scrape_from_json_file self source limit w = Raise)
  /\ (fetch_json_from_url self source = Ret (JObj fields) ->
      scrape_from_json_url self source limit w = Raise)
  /\ (session_get source = Ret (JObj fields) ->
      scrape_from_api self session_get source w =
      ({| inserted := 0; updated := 0; errors := 1 |}, w)).
Proof.
  intros Hitems Hin Hitem.
  assert (Hraise : process_json_response (processor self) (JObj fields)
                   = Raise).
  { unfold process_json_response. cbn [py_get]. exc_simpl.
    rewrite Hitems. cbn [py_iter]. exc_simpl.
    exact (process_items_not_dict _ _ _ Hin Hitem). }
  split; [exact Hraise|].
  unfold scrape_from_json_file, scrape_from_json_url, scrape_from_api.
  repeat split; intros ->; exc_simpl; rewrite Hraise; reflexivity.
Qed.

Lemma item_that_is_no_dict_aborts_the_source_witness :
  let document :=
    JObj [("items", JArr [JObj (listing "1" ["Knitwear"] []); JStr "2"])] in
  @scrape_from_json_file stub_runtime _
    (recording_scraper failing_generator (fun _ => "t") (fun _ => Commit)
       document)
    "catalogue.json" None (mkWorld ∅ 0 []) = Raise.
Proof.
  intros document.
  apply (@item_that_is_no_dict_aborts_the_source stub_runtime World
           (recording_scraper failing_generator (fun _ => "t")
              (fun _ => Commit) document)
           "catalogue.json"
           [("items", JArr [JObj (listing "1" ["Knitwear"] []); JStr "2"])]
           [JObj (listing "1" ["Knitwear"] []); JStr "2"] (JStr "2") None
           (mkWorld ∅ 0 []) (fun _ => Raise) eq_refl).
  - apply list_elem_of_further, list_elem_of_here.
  - discriminate.
  - reflexivity.
Defined.

(** X13. What a scrape returns counts the products handed to the sink
    and nothing else: the two counters add up to the length of the
    limited list, so a listing dropped by the normaliser is in neither. *)
Theorem scrape_counts_the_products_handed_on `{PyRuntime} {W : Type}
    (self : COSScraper W) (source : string) (fields : dict)
    (listings : list dict) (limit : option Z) (w : W) :
  dict_get fields "items" (JArr []) = JArr (map JObj listings) ->
  load_json_from_file self source = Ret (JObj fields) ->
  exists results w',
    scrape_from_json_file self source limit w = Ret (results, w') /\
    inserted results + errors results =
      length (limit_products limit
                (omap (process_product (processor self)) listings)) /\
    updated results = 0 /\
    inserted results + errors results <= length listings.
Proof.
  intros Hitems Hload.
  pose proof (response_of_dicts (processor self) _ _ Hitems) as Hproducts.
  pose proof (length_omap_le (process_product (processor self)) listings)
    as Hle.
  destruct (scrape_hands_limited self _ _ Hproducts source limit w)
    as [Hfile _].
  set (products := omap (process_product (processor self)) listings) in *.
  destruct (import_products (importer self) (limit_products limit products) w)
    as [results w'] eqn:Hrun.
  exists results, w'. split; [exact (Hfile Hload)|].
  destruct (import_fold_counts (importer self)
              (limit_products limit products) (mkResults 0 0 0, w))
    as [Hsum Hupdated].
  unfold import_products in Hrun. rewrite Hrun in Hsum, Hupdated.
  cbn [fst inserted errors updated] in Hsum, Hupdated.
  split; [exact Hsum|]. split; [exact Hupdated|].
  rewrite Hsum.
  assert (Hprefix : length (limit_products limit products) <= length products).
  { unfold limit_products, slice_to.
    destruct limit as [n|]; [|reflexivity].
    destruct (negb (n =? 0)%Z); [|reflexivity].
    destruct (0 <=? n)%Z; rewrite length_take; lia. }
  lia.
Qed.

Lemma scrape_counts_the_products_handed_on_witness :
  let document :=
    JObj [("items",
           JArr (map JObj [listing "1" ["Knitwear"] [];
                           listing "" ["Knitwear"] [];
                           listing "3" ["Knitwear"] []]))] in
  exists results w',
    @scrape_from_json_file stub_runtime _
      (recording_scraper failing_generator (fun _ => "t") (fun _ => Commit)
         document)
      "catalogue.json" None (mkWorld ∅ 0 []) = Ret (results, w') /\
    inserted results + errors results = 2.
Proof.
  intros document.
  destruct (@scrape_counts_the_products_handed_on stub_runtime World
              (recording_scraper failing_generator (fun _ => "t")
                 (fun _ => Commit) document)
              "catalogue.json"
              [("items",
                JArr (map JObj [listing "1" ["Knitwear"] [];
                                listing "" ["Knitwear"] [];
                                listing "3" ["Knitwear"] []]))]
              [listing "1" ["Knitwear"] []; listing "" ["Knitwear"] [];
               listing "3" ["Knitwear"] []] None (mkWorld ∅ 0 [])
              eq_refl eq_refl) as (results & w' & Hrun & Hsum & _).
  exists results, w'. split; [exact Hrun|].
  rewrite Hsum. vm_compute. reflexivity.
Defined.

(** X14. Whatever the limit, the list handed on is a prefix of the
    normalised list: nothing is reordered or added. A negative limit
    cuts the list from its end: [-k] leaves out the last [k] products,
    all of them when there are no more than [k]. *)
Theorem limit_keeps_a_prefix {A : Type} (limit : option Z)
    (products : list A) :
  (exists rest, products = limit_products limit products ++ rest)
  /\ (forall k, limit = Some (- Z.of_nat (S k)) ->
        limit_products limit products =
        take (length products - S k) products).
Proof.
  split.
  - unfold limit_products, slice_to. destruct limit as [n|].
    + destruct (negb (n =? 0)%Z); [|exists []; now rewrite app_nil_r].
      destruct (0 <=? n)%Z; eexists; symmetry; apply take_drop.
    + exists []. now rewrite app_nil_r.
  - intros k ->. unfold limit_products, slice_to.
    destruct (Z.eqb_spec (- Z.of_nat (S k)) 0) as [Hz|_]; [lia|]. cbn [negb].
    destruct (Z.leb_spec 0 (- Z.of_nat (S k))) as [Hle|_]; [lia|].
    rewrite Z.opp_involutive, Nat2Z.id. reflexivity.
Qed.

Example limit_minus_two :
  limit_products (Some (-2)%Z) ["a"; "b"; "c"; "d"; "e"] = ["a"; "b"; "c"].
Proof. reflexivity. Qed.

(** * Further properties of the sink *)

Section ImportComposes.
Context {W : Type} (sink : SupabaseImporter W).

Lemma add_results_zero (r : Results) : add_results r (mkResults 0 0 0) = r.
Proof. destruct r; unfold add_results; cbn; f_equal; lia. Qed.

Lemma import_one_shift (results : Results) (w : W) (p : ProductData.t) :
  import_one sink (results, w) p =
  (add_results results (fst (import_one sink (mkResults 0 0 0, w) p)),
   snd (import_one sink (mkResults 0 0 0, w) p)).
Proof.
  unfold import_one. destruct (utcnow sink w) as [now w1].
  destruct (upsert sink (product_dict p now) w1) as [[[|row rows]|] w2];
    destruct results; unfold add_results, count_inserted, count_error; cbn;
    repeat f_equal; lia.
Qed.

Lemma add_results_assoc (a b c : Results) :
  add_results (add_results a b) c = add_results a (add_results b c).
Proof. unfold add_results; cbn; f_equal; lia. Qed.

Lemma import_fold_shift (products : list ProductData.t) (results : Results)
    (w : W) :
  fold_left (import_one sink) products (results, w) =
  (add_results results (fst (import_products sink products w)),
   snd (import_products sink products w)).
Proof.
  unfold import_products. revert results w.
  induction products as [|p products IH]; intros results w.
  - cbn. now rewrite add_results_zero.
  - cbn [fold_left]. rewrite import_one_shift.
    destruct (import_one sink (mkResults 0 0 0, w) p) as [r1 w1].
    cbn [fst snd]. rewrite (IH (add_results results r1)), (IH r1).
    cbn [fst snd]. rewrite add_results_assoc. reflexivity.
Qed.

(** X15. Importing a batch in two parts, one after the other, gives the
    sums of the counters of the parts, and the store the second part
    leaves: the loop carries nothing from one record to the next but the
    counters. *)
Theorem import_of_two_parts (first second : list ProductData.t) (w : W) :
  let run1 := import_products sink first w in
  let run2 := import_products sink second (snd run1) in
  import_products sink (first ++ second) w =
  (add_results (fst run1) (fst run2), snd run2).
Proof.
  intros run1 run2. unfold import_products at 1. rewrite fold_left_app.
  fold (import_products sink first w). fold run1.
  destruct run1 as [r1 w1] eqn:Hrun1. apply import_fold_shift.
Qed.
End ImportComposes.

Lemma list_to_set_remove_dups_keys (keys : list (string * string)) :
  list_to_set (remove_dups keys) =@{gset (string * string)} list_to_set keys.
Proof.
  apply set_eq. intros k.
  rewrite !elem_of_list_to_set, elem_of_remove_dups. reflexivity.
Qed.

(** X16. Against a store that accepts every write and starts empty,
    [inserted] counts the writes and not the rows: it is the number of
    products, while the table has one row for each natural key that
    occurs among them, fewer when two products share a key. *)
Theorem inserted_counts_writes_not_rows (clock : nat -> string)
    (products : list ProductData.t) (t : nat) (log : list ProductDict.t) :
  let run := import_products (reliable clock) products (mkWorld ∅ t log) in
  inserted (fst run) = length products
  /\ errors (fst run) = 0
  /\ size (table (snd run)) =
       length (remove_dups (map natural_key products))
  /\ size (table (snd run)) <= inserted (fst run).
Proof.
  intros run.
  destruct (scripted_fold clock (fun _ => Commit) products (mkResults 0 0 0)
              (mkWorld ∅ t log)) as (_ & _ & Hins & Herr).
  fold (reliable clock) in Hins, Herr.
  fold (import_products (reliable clock) products (mkWorld ∅ t log))
    in Hins, Herr.
  fold run in Hins, Herr. cbn [inserted errors calls] in Hins, Herr.
  assert (Hall : forall n m,
            List.filter committed (map (fun _ : nat => Commit) (seq n m)) =
            map (fun _ : nat => Commit) (seq n m)).
  { intros n m. revert n. induction m as [|m IH]; intros n; [reflexivity|].
    cbn. now rewrite IH. }
  assert (Hnone : forall n m,
            List.filter (fun a => negb (committed a))
              (map (fun _ : nat => Commit) (seq n m)) = []).
  { intros n m. revert n. induction m as [|m IH]; intros n; [reflexivity|].
    cbn. apply IH. }
  rewrite Hall, length_map, length_seq in Hins. rewrite Hnone in Herr.
  assert (Hsize : size (table (snd run)) =
                  length (remove_dups (map natural_key products))).
  { assert (Htable : table (snd run) =
              upsert_all (rows_from clock t products) ∅).
    { exact (committed_fold clock (fun _ => Commit) products
               (mkResults 0 0 0) (mkWorld ∅ t log) (fun _ _ => eq_refl)). }
    rewrite <- size_dom, Htable, upsert_all_dom, rows_from_keys, dom_empty_L.
    rewrite union_empty_l_L, <- list_to_set_remove_dups_keys.
    apply size_list_to_set, NoDup_remove_dups. }
  split; [exact Hins|]. split; [exact Herr|]. split; [exact Hsize|].
  assert (Hdups : forall keys : list (string * string),
            length (remove_dups keys) <= length keys).
  { induction keys as [|k keys IH]; [reflexivity|].
    cbn [remove_dups].
    destruct (decide_rel elem_of k keys); cbn [length]; lia. }
  pose proof (Hdups (map natural_key products)) as Hle.
  rewrite length_map in Hle. lia.
Qed.

Example two_listings_without_link_share_a_row :
  let self := {| embedding_generator := failing_generator |} in
  let products :=
    omap (@process_product stub_runtime self)
      [ listing "1" ["Knitwear"] [("uri", JNull)];
        listing "2" ["Coats"] [("uri", JNull)] ] in
  let run := import_products (reliable (fun _ => "t")) products
               (mkWorld ∅ 0 []) in
  inserted (fst run) = 2 /\ size (table (snd run)) = 1.
Proof. vm_compute. split; reflexivity. Qed.

(** * Further properties of the scraper *)


(** ** [run_scraper] *)

Section RunTotals.
Context `{PyRuntime} {W : Type} (self : COSScraper W).
Variables (load : string -> exc json)
          (scrape : string -> option Z -> W -> exc (Results * W))
          (limit : option Z).
Hypothesis Hscrape : forall source w,
  scrape source limit w =
  match source_batch (processor self) load limit source with
  | Ret products => Ret (import_products (importer self) products w)
  | Raise => Raise
  end.

Lemma run_fold_counts (sources : list string) (st : Results * W) :
  let st' := fold_left (run_source scrape limit) sources st in
  inserted (fst st') + errors (fst st') =
    inserted (fst st) + errors (fst st) +
    sum_list (map (fun source =>
                     batch_weight
                       (source_batch (processor self) load limit source))
                  sources)
  /\ updated (fst st') = updated (fst st).
Proof.
  revert st. induction sources as [|source sources IH]; intros [total w].
  - cbn. split; [lia | reflexivity].
  - cbn [fold_left map sum_list sum_list_with].
    destruct (IH (run_source scrape limit (total, w) source)) as [Hsum Hupd].
    cbv zeta in Hsum, Hupd |- *. rewrite Hsum, Hupd. clear Hsum Hupd IH.
    unfold run_source. rewrite Hscrape.
    destruct (source_batch (processor self) load limit source)
      as [products|]; cbn [batch_weight].
    + destruct (import_fold_counts (importer self) products
                  (mkResults 0 0 0, w)) as [Hone Hsame].
      fold (import_products (importer self) products w) in Hone, Hsame.
      destruct (import_products (importer self) products w) as [r w'].
      cbn in Hone, Hsame |- *. split; lia.
    + cbn. split; [lia | reflexivity].
Qed.
End RunTotals.

Lemma scrape_file_is_batch `{PyRuntime} {W : Type} (self : COSScraper W)
    (limit : option Z) (source : string) (w : W) :
  scrape_from_json_file self source limit w =
  match source_batch (processor self) (load_json_from_file self) limit source
  with
  | Ret products => Ret (import_products (importer self) products w)
  | Raise => Raise
  end.
Proof.
  unfold scrape_from_json_file, source_batch.
  destruct (load_json_from_file self source) as [json_data|]; exc_simpl;
    [|reflexivity].
  destruct (process_json_response (processor self) json_data); reflexivity.
Qed.

Lemma scrape_url_is_batch `{PyRuntime} {W : Type} (self : COSScraper W)
    (limit : option Z) (source : string) (w : W) :
  scrape_from_json_url self source limit w =
  match source_batch (processor self) (fetch_json_from_url self) limit source
  with
  | Ret products => Ret (import_products (importer self) products w)
  | Raise => Raise
  end.
Proof.
  unfold scrape_from_json_url, source_batch.
  destruct (fetch_json_from_url self source) as [json_data|]; exc_simpl;
    [|reflexivity].
  destruct (process_json_response (processor self) json_data); reflexivity.
Qed.

(** X18. The totals of a run over files and addresses: every source that
    can be read and processed adds the number of products it hands to
    the sink to the sum of the two counters, and a source that raises
    adds one error and stops nothing; [updated] stays 0. *)
Theorem run_totals_add_up `{PyRuntime} {W : Type} (self : COSScraper W)
    (files_to_scrape urls_to_scrape : list string) (limit : option Z)
    (w : W) :
  let totals :=
    fst (run_scraper self files_to_scrape urls_to_scrape limit w) in
  inserted totals + errors totals =
    sum_list (map (fun source =>
                     batch_weight
                       (source_batch (processor self)
                          (load_json_from_file self) limit source))
                  files_to_scrape)
    + sum_list (map (fun source =>
                       batch_weight
                         (source_batch (processor self)
                            (fetch_json_from_url self) limit source))
                    urls_to_scrape)
  /\ updated totals = 0.
Proof.
  unfold run_scraper.
  destruct (run_fold_counts self (fetch_json_from_url self)
              (scrape_from_json_url self) limit
              (scrape_url_is_batch self limit) urls_to_scrape
              (fold_left (run_source (scrape_from_json_file self) limit)
                 files_to_scrape (mkResults 0 0 0, w))) as [Hsum Hupd].
  destruct (run_fold_counts self (load_json_from_file self)
              (scrape_from_json_file self) limit
              (scrape_file_is_batch self limit) files_to_scrape
              (mkResults 0 0 0, w)) as [Hsum' Hupd'].
  cbv zeta in Hsum, Hupd, Hsum', Hupd' |- *. cbn [fst inserted errors updated]
    in Hsum', Hupd'.
  rewrite Hsum, Hupd, Hsum', Hupd'. split; [lia | reflexivity].
Qed.

Example unreadable_file_is_one_error :
  let self :=
    {| processor := {| embedding_generator := failing_generator |};
       importer := reliable (fun _ => "t");
       load_json_from_file := fun path =>
         if String.eqb path "good.json" then Ret (catalogue 2) else Raise;
       fetch_json_from_url := fun _ => Ret (catalogue 3) |} in
  fst (@run_scraper stub_runtime _ self ["missing.json"; "good.json"]
         ["https://example.org/items"] (Some 2%Z) (mkWorld ∅ 0 []))
  = mkResults 4 0 1.
Proof. vm_compute. reflexivity. Qed.

Lemma rows_from_app clock start (first second : list ProductData.t) :
  rows_from clock start (first ++ second) =
  rows_from clock start first ++ rows_from clock (start + length first) second.
Proof.
  revert start. induction first as [|p first IH]; intros start.
  - cbn [app length]. rewrite Nat.add_0_r. reflexivity.
  - cbn [app length]. rewrite !rows_from_cons, IH. cbn [app].
    do 3 f_equal. lia.
Qed.

Section RunCalls.
Context `{PyRuntime} (self : COSScraper World).
Variables (clock : nat -> string) (script : nat -> Answer).
Hypothesis Himporter : importer self = scripted clock script.
Variables (load : string -> exc json)
          (scrape : string -> option Z -> World -> exc (Results * World))
          (limit : option Z).
Hypothesis Hscrape : forall source w,
  scrape source limit w =
  match source_batch (processor self) load limit source with
  | Ret products => Ret (import_products (importer self) products w)
  | Raise => Raise
  end.

Lemma run_fold_calls (sources : list string) (st : Results * World) :
  let st' := fold_left (run_source scrape limit) sources st in
  let handed :=
    concat (map (fun source =>
                   batch_products
                     (source_batch (processor self) load limit source))
                sources) in
  calls (snd st') = calls (snd st) ++ rows_from clock (ticks (snd st)) handed
  /\ ticks (snd st') = ticks (snd st) + length handed.
Proof.
  revert st. induction sources as [|source sources IH]; intros [total w].
  - cbn. rewrite app_nil_r. split; [reflexivity | lia].
  - cbn [fold_left map concat].
    destruct (IH (run_source scrape limit (total, w) source)) as [Hcalls Hticks].
    cbv zeta in Hcalls, Hticks |- *. rewrite Hcalls, Hticks.
    clear Hcalls Hticks IH.
    unfold run_source. rewrite Hscrape, Himporter.
    destruct (source_batch (processor self) load limit source)
      as [products|]; cbn [batch_products snd].
    + destruct (scripted_fold clock script products (mkResults 0 0 0) w)
        as (Hticks & Hcalls & _).
      fold (import_products (scripted clock script) products w)
        in Hticks, Hcalls.
      destruct (import_products (scripted clock script) products w)
        as [r w']. cbn [snd] in Hticks, Hcalls |- *.
      rewrite Hticks, Hcalls, rows_from_app, length_app, <- app_assoc.
      split; [reflexivity | lia].
    + cbn [app length]. split; [reflexivity | lia].
Qed.
End RunCalls.

(** X19. A run submits to the store the rows of the files, in the order
    of the files, then the rows of the addresses, in their order, each
    source's rows in the order of its limited list; a source that raises
    contributes nothing and the sources after it are still read. *)
Theorem run_submits_sources_in_order `{PyRuntime} (self : COSScraper World)
    (clock : nat -> string) (script : nat -> Answer)
    (files_to_scrape urls_to_scrape : list string) (limit : option Z)
    (w : World) :
  importer self = scripted clock script ->
  let handed load sources :=
    concat (map (fun source =>
                   batch_products
                     (source_batch (processor self) load limit source))
                sources) in
  calls (snd (run_scraper self files_to_scrape urls_to_scrape limit w)) =
  calls w ++
  rows_from clock (ticks w)
    (handed (load_json_from_file self) files_to_scrape ++
     handed (fetch_json_from_url self) urls_to_scrape).
Proof.
  intros Himporter handed. unfold run_scraper.
  destruct (run_fold_calls self clock script Himporter
              (fetch_json_from_url self) (scrape_from_json_url self) limit
              (scrape_url_is_batch self limit) urls_to_scrape
              (fold_left (run_source (scrape_from_json_file self) limit)
                 files_to_scrape (mkResults 0 0 0, w))) as [Hcalls _].
  destruct (run_fold_calls self clock script Himporter
              (load_json_from_file self) (scrape_from_json_file self) limit
              (scrape_file_is_batch self limit) files_to_scrape
              (mkResults 0 0 0, w)) as [Hcalls' Hticks'].
  cbv zeta in Hcalls, Hcalls', Hticks'. cbn [snd] in Hcalls', Hticks'.
  rewrite Hcalls, Hcalls', Hticks', rows_from_app, <- app_assoc.
  reflexivity.
Qed.

Lemma run_submits_sources_in_order_witness :
  let self :=
    {| processor := {| embedding_generator := failing_generator |};
       importer := scripted (fun _ => "t") (fun _ => Failure);
       load_json_from_file := fun path =>
         if String.eqb path "good.json" then Ret (catalogue 2) else Raise;
       fetch_json_from_url := fun _ => Ret (catalogue 3) |} in
  map ProductDict.id
    (calls (snd (@run_scraper stub_runtime _ self ["missing.json"; "good.json"]
                   ["https://example.org/items"] (Some 1%Z)
                   (mkWorld ∅ 0 []))))
  = ["cos_0"; "cos_0"].
Proof.
  intros self.
  rewrite (@run_submits_sources_in_order stub_runtime self (fun _ => "t")
             (fun _ => Failure) ["missing.json"; "good.json"]
             ["https://example.org/items"] (Some 1%Z) (mkWorld ∅ 0 [])
             eq_refl).
  vm_compute. reflexivity.
Defined.

(** ** [main] and [load_config] *)

Lemma without_placeholders_none (entries : list json) (kept : list string) :
  without_placeholders entries = Ret kept ->
  forall x, x ∈ kept -> String.prefix "PASTE_" x = false.
Proof.
  revert kept. induction entries as [|entry entries IH]; intros kept.
  - intros [= <-] x Hx. inversion Hx.
  - cbn [without_placeholders]. destruct entry; try discriminate.
    cbn [as_str]. exc_simpl.
    destruct (without_placeholders entries) as [more|]; [|discriminate].
    exc_simpl. destruct (String.prefix "PASTE_" s) eqn:Hs.
    + intros [= <-]. exact (IH more eq_refl).
    + intros [= <-] x Hx. apply elem_of_cons in Hx as [->|Hx];
        [exact Hs | exact (IH more eq_refl x Hx)].
Qed.

(** What the branch of [main] that reads the configuration returns. *)
Lemma main_plan_from_config (args : Args.t) (loaded : option json)
    (plan : Plan) :
  Args.config args
    || (negb (given (Args.json_file args))
        && negb (given (Args.json_url args))) = true ->
  main_plan args loaded = Ret plan ->
  plan = NoConfig \/ plan = NoSources \/
  exists config url_entries file_entries files urls,
    loaded = Some (JObj config) /\
    py_iter (dict_get config "urls" (JArr [])) = Ret url_entries /\
    py_iter (dict_get config "files" (JArr [])) = Ret file_entries /\
    without_placeholders url_entries = Ret urls /\
    without_placeholders file_entries = Ret files /\
    files ++ urls <> [] /\
    plan = Run files urls
             match Args.limit args with
             | Some n => JInt n
             | None => dict_get config "limit" JNull
             end.
Proof.
  intros Hcond. unfold main_plan. rewrite Hcond.
  destruct loaded as [config|]; [|intros [= <-]; left; reflexivity].
  destruct (truthy config) eqn:Htrue; cbn [negb];
    [|intros [= <-]; left; reflexivity].
  destruct config as [| | | | | |config]; try discriminate.
  cbn [py_get]. exc_simpl.
  destruct (Args.limit args) as [n|]; exc_simpl.
  all: destruct (py_iter (dict_get config "urls" (JArr [])))
    as [url_entries|] eqn:Hui; [|discriminate]; exc_simpl.
  all: destruct (without_placeholders url_entries) as [urls|] eqn:Hurls;
    [|discriminate]; exc_simpl.
  all: destruct (py_iter (dict_get config "files" (JArr [])))
    as [file_entries|] eqn:Hfi; [|discriminate]; exc_simpl.
  all: destruct (without_placeholders file_entries) as [files|] eqn:Hfiles;
    [|discriminate]; exc_simpl.
  all: destruct urls as [|u urls], files as [|f files]; intros [= <-];
    [right; left; reflexivity | right; right ..].
  all: match goal with
       | H1 : py_iter (dict_get ?c "urls" _) = Ret ?ue,
         H2 : py_iter (dict_get ?c "files" _) = Ret ?fe,
         Hu : without_placeholders ?ue = Ret ?us,
         Hf : without_placeholders ?fe = Ret ?fs |- _ =>
           exists c, ue, fe, fs, us;
           repeat split; try assumption; discriminate
       end.
Qed.

(** X20. [main] never reaches the branch that prints the usage examples:
    whatever the arguments and the configuration, it reads the
    configuration, scrapes the address or the file of the command line,
    or raises. *)
Theorem usage_branch_is_never_taken (args : Args.t) (loaded : option json) :
  main_plan args loaded <> Ret Usage.
Proof.
  intros Hplan.
  destruct (Args.config args
            || (negb (given (Args.json_file args))
                && negb (given (Args.json_url args)))) eqn:Hcond.
  - destruct (main_plan_from_config args loaded Usage Hcond Hplan)
      as [Hno | [Hno | (? & ? & ? & ? & ? & _ & _ & _ & _ & _ & _ & Hno)]];
      discriminate Hno.
  - unfold main_plan in Hplan. rewrite Hcond in Hplan.
    destruct (given (Args.json_url args)) eqn:Hurl; [discriminate Hplan|].
    destruct (given (Args.json_file args)) eqn:Hfile; [discriminate Hplan|].
    destruct (Args.config args); discriminate Hcond.
Qed.

(** X21. Without [--config], an address given on the command line is the
    only source scraped, whether or not a file is given too. *)
Theorem url_argument_hides_file_argument (args : Args.t)
    (loaded : option json) (url : string) :
  Args.config args = false ->
  Args.json_url args = Some url ->
  url <> "" ->
  main_plan args loaded =
  Ret (Run [] [url]
         match Args.limit args with
         | Some n => JInt n
         | None => JNull
         end).
Proof.
  intros Hconfig Hurl Hne. unfold main_plan. rewrite Hconfig, Hurl.
  cbn [given text_of orb].
  destruct (String.eqb_spec url ""); [contradiction|].
  cbn [negb]. rewrite andb_false_r. reflexivity.
Qed.

Lemma url_argument_hides_file_argument_witness :
  main_plan
    {| Args.limit := None; Args.json_file := Some "1.txt";
       Args.json_url := Some "https://example.org/items";
       Args.config := false |} None
  = Ret (Run [] ["https://example.org/items"] JNull).
Proof.
  apply (url_argument_hides_file_argument
           {| Args.limit := None; Args.json_file := Some "1.txt";
              Args.json_url := Some "https://example.org/items";
              Args.config := false |} None "https://example.org/items");
    [reflexivity | reflexivity | discriminate].
Defined.

(** X22. When [main] goes on to scrape, a limit given on the command
    line is the limit used, a limit of 0 included, which hides the limit
    of the configuration and limits nothing; and the sources taken from
    the configuration are not empty and hold no entry that starts with
    "PASTE_". *)
Theorem plan_limit_and_sources (args : Args.t) (loaded : option json)
    (files urls : list string) (limit : json) :
  main_plan args loaded = Ret (Run files urls limit) ->
  files ++ urls <> []
  /\ (forall n, Args.limit args = Some n -> limit = JInt n)
  /\ (Args.config args
        || (negb (given (Args.json_file args))
            && negb (given (Args.json_url args))) = true ->
      (forall x, x ∈ files ++ urls -> String.prefix "PASTE_" x = false)
      /\ (Args.limit args = None ->
          exists config,
            loaded = Some (JObj config) /\
            limit = dict_get config "limit" JNull)).
Proof.
  intros Hplan.
  destruct (Args.config args
            || (negb (given (Args.json_file args))
                && negb (given (Args.json_url args)))) eqn:Hcond.
  - destruct (main_plan_from_config args loaded _ Hcond Hplan)
      as [Hno | [Hno | (config & url_entries & file_entries & files' & urls'
                        & Hloaded & _ & _ & Hurls & Hfiles & Hne & Hrun)]];
      try discriminate Hno.
    injection Hrun as -> -> ->.
    split; [exact Hne|]. split; [intros n ->; reflexivity|].
    intros _. split.
    + intros x Hx. apply elem_of_app in Hx as [Hx|Hx].
      * exact (without_placeholders_none _ _ Hfiles x Hx).
      * exact (without_placeholders_none _ _ Hurls x Hx).
    + intros ->. exists config. split; [exact Hloaded | reflexivity].
  - unfold main_plan in Hplan. rewrite Hcond in Hplan.
    destruct (given (Args.json_url args));
      [|destruct (given (Args.json_file args)); [|discriminate Hplan]];
      injection Hplan as <- <- <-;
      (split; [discriminate|]);
      (split; [intros n ->; reflexivity | discriminate]).
Qed.

Lemma plan_limit_and_sources_witness :
  let args :=
    {| Args.limit := Some 0%Z; Args.json_file := None;
       Args.json_url := None; Args.config := true |} in
  let config :=
    JObj [ ("urls", JArr [JStr "PASTE_YOUR_JSON_URLS_HERE";
                          JStr "https://example.org/items"]);
           ("limit", JInt 5) ] in
  main_plan args (Some config) =
    Ret (Run [] ["https://example.org/items"] (JInt 0)).
Proof.
  intros args config.
  destruct (main_plan args (Some config)) as [[files urls limit| | |]|] eqn:Hplan;
    try (vm_compute in Hplan; discriminate Hplan).
  destruct (plan_limit_and_sources args (Some config) files urls limit Hplan)
    as (_ & Hlimit & _).
  rewrite (Hlimit 0%Z eq_refl).
  vm_compute in Hplan. injection Hplan as <- <- _. reflexivity.
Defined.

(** X23. [load_config] settles after one call: a second call returns
    what the first returned and leaves the file as the first left it. The
    configuration it writes for a missing file holds a placeholder
    address only, so a run that reads the configuration scrapes nothing,
    on the first run without the file and on every run after it until the
    file is edited. *)
Theorem default_config_scrapes_nothing (args : Args.t) (file : ConfigFile) :
  load_config (snd (load_config file)) = load_config file
  /\ (file = Missing \/ file = Parsed default_config ->
      Args.config args
        || (negb (given (Args.json_file args))
            && negb (given (Args.json_url args))) = true ->
      snd (load_config file) = Parsed default_config /\
      main_plan args (fst (load_config file)) = Ret NoSources).
Proof.
  split; [destruct file; reflexivity|].
  intros Hfile Hcond.
  assert (Hload : load_config file =
                  (Some default_config, Parsed default_config))
    by (destruct Hfile as [-> | ->]; reflexivity).
  rewrite Hload. split; [reflexivity|].
  cbn [fst]. unfold main_plan. rewrite Hcond.
  destruct (Args.limit args); reflexivity.
Qed.
